(** * Lab Intelligence Chatbot: the Streamlit front end ([app.py])

    A shallow embedding of [app.py] and the properties of its request
    plumbing and session bookkeeping.

    The script is a Streamlit page: every user interaction runs it from top
    to bottom against the per-session [st.session_state].  One run is
    modelled as a computation in a state-and-exception monad over
    - the session state ([messages], [query_history], [current_question]),
    - the elements handed to Streamlit, each with the container it was
      written into,
    - the HTTP requests issued through [requests].

    Everything outside the repository (the backend, the browser's widget
    state, the clock, [os.getenv], Python's [int] and its [str] on
    containers and floats, pandas and plotly) is gathered in the record
    [environment]; the theorems hold for every environment. *)

From Stdlib Require Import ZArith QArith.
From stdpp Require Import gmap strings list pretty.

Local Open Scope Z_scope.

(** ** Python values, truthiness and exceptions *)

Module Py.

(** What [response.json()] can return, and what the script stores in its
    message dictionaries.  A [dict] with [str] keys is a finite map. *)
#[warnings="-register-all"]
Inductive value : Type :=
| VNone
| VBool (b : bool)
| VInt (n : Z)
| VFloat (q : Q)
| VStr (s : string)
| VList (l : list value)
| VDict (d : gmap string value).

Abbreviation dict := (gmap string value).

(** Python's truth test, as used by [if result:] and [if message.get(..):]. *)
Definition truthy (v : value) : bool :=
  match v with
  | VNone => false
  | VBool b => b
  | VInt n => negb (n =? 0)%Z
  | VFloat q => negb (Qnum q =? 0)%Z
  | VStr s => match s with EmptyString => false | String _ _ => true end
  | VList l => match l with [] => false | _ :: _ => true end
  | VDict d => negb (bool_decide (d = ∅))
  end.

(** The exceptions the script can meet.  [Timeout] stands for
    [requests.exceptions.Timeout] and its subclasses, [RequestException]
    for every other subclass of [requests.exceptions.RequestException]
    (connection errors, [HTTPError], invalid URLs, ...); both carry
    [str(e)].  [RerunException] is what [st.rerun()] raises to stop the
    script. *)
Inductive exception : Type :=
| Timeout (msg : string)
| RequestException (msg : string)
| AttributeError
| TypeError
| KeyError
| ValueError
| RerunException
| OtherException (msg : string).

Inductive result (A : Type) : Type :=
| Ok (a : A)
| Raise (e : exception).
Arguments Ok {A} a.
Arguments Raise {A} e.

(** [d.get(key, default)] on a dictionary. *)
Definition dict_get (d : dict) (key : string) (dflt : value) : value :=
  match d !! key with
  | Some v => v
  | None => dflt
  end.

(** [v.get(key, default)] on an arbitrary value: only dictionaries have
    the method. *)
Definition get (v : value) (key : string) (dflt : value) : result value :=
  match v with
  | VDict d => Ok (dict_get d key dflt)
  | _ => Raise AttributeError
  end.

(** [d[key]] *)
Definition item (d : dict) (key : string) : result value :=
  match d !! key with
  | Some v => Ok v
  | None => Raise KeyError
  end.

(** [len(v) > 0]; [len] is defined on strings, lists and dictionaries. *)
Definition len_gt_0 (v : value) : result bool :=
  match v with
  | VStr s => Ok (match s with EmptyString => false | String _ _ => true end)
  | VList l => Ok (match l with [] => false | _ :: _ => true end)
  | VDict d => Ok (negb (bool_decide (d = ∅)))
  | _ => Raise TypeError
  end.

(** [query[:n]] on an ASCII string. *)
Definition slice_to (n : nat) (s : string) : string := String.substring 0 n s.

End Py.
Export Py.

(** ** The [requests] library *)

Module Requests.

(** A received response.  [json] is the outcome of [response.json()]:
    the decoded body, or the exception raised when the body is not
    JSON. *)
Record response : Type := Response {
  status_code : Z;
  reason : string;
  url : string;
  json : result value
}.

(** [response.raise_for_status()] *)
Definition raise_for_status (r : response) : result unit :=
  if ((400 <=? status_code r) && (status_code r <? 500))%Z then
    Raise (RequestException
      (pretty (status_code r) +:+ " Client Error: " +:+ reason r +:+ " for url: " +:+ url r))
  else if ((500 <=? status_code r) && (status_code r <? 600))%Z then
    Raise (RequestException
      (pretty (status_code r) +:+ " Server Error: " +:+ reason r +:+ " for url: " +:+ url r))
  else Ok tt.

(** The requests a run issues, in order. *)
Inductive http_request : Type :=
| POST (url : string) (json : value) (timeout : Z)
| GET (url : string) (timeout : Z).

End Requests.
Export Requests.

(** ** Streamlit *)

Module Streamlit.

(** Containers opened by [with ...:] blocks and by [st.sidebar]. *)
Inductive container : Type :=
| Sidebar
| Container
| ChatMessage (name : value)
| Spinner (text : string)
| Expander (label : string).

(** The table, metric and chart widgets produced by the pandas/plotly
    parts of the script. *)
Inductive data_widget : Type :=
| Metric (label : string) (shown : string)
| Dataframe (rows : value)
| DownloadButton (label : string) (file_name : string)
| PlotlyChart (title : string).

(** One call into the Streamlit API together with its arguments. *)
Inductive element : Type :=
| PageConfig (page_title page_icon layout initial_sidebar_state : string)
| Title (body : string)
| Header (body : string)
| Markdown (body : value) (unsafe_allow_html : bool)
| Divider
| Success (body : string)
| Error (body : string)
| Warning (body : string)
| Info (body : string)
| Code (body : value) (language : string)
| TextInput (label : string) (default : string)
| Slider (label : string) (min_value max_value default : Z)
| Button (label : string) (key : string)
| ChatInput (placeholder : string)
| Data (w : data_widget).

(** A slider position reported by the browser for a slider declared with
    bounds [lo] and [hi]: the front end only produces positions inside
    the bounds. *)
Record slider_position (lo hi : Z) : Type := SliderPosition {
  position : Z;
  position_in_range : ((lo <=? position) && (position <=? hi))%Z = true
}.
Arguments position {lo hi} _.

(** [st.session_state]: each key may be absent. *)
Record session_state : Type := SessionState {
  messages : option (list dict);
  query_history : option (list dict);
  current_question : option string
}.

Definition set_messages (l : option (list dict)) (ss : session_state) : session_state :=
  {| messages := l; query_history := query_history ss;
     current_question := current_question ss |}.

Definition set_query_history (l : option (list dict)) (ss : session_state) : session_state :=
  {| messages := messages ss; query_history := l;
     current_question := current_question ss |}.

Definition set_current_question (q : option string) (ss : session_state) : session_state :=
  {| messages := messages ss; query_history := query_history ss;
     current_question := q |}.

(** The state of one script run. *)
Record run_state : Type := RunState {
  session : session_state;
  rendered : list (list container * element);
  requests : list http_request;
  cursor : list container
}.

Definition set_session (f : session_state -> session_state) (s : run_state) : run_state :=
  {| session := f (session s); rendered := rendered s;
     requests := requests s; cursor := cursor s |}.

Definition set_cursor (c : list container) (s : run_state) : run_state :=
  {| session := session s; rendered := rendered s;
     requests := requests s; cursor := c |}.

Definition add_rendered (e : element) (s : run_state) : run_state :=
  {| session := session s; rendered := rendered s ++ [(cursor s, e)];
     requests := requests s; cursor := cursor s |}.

Definition add_request (r : http_request) (s : run_state) : run_state :=
  {| session := session s; rendered := rendered s;
     requests := requests s ++ [r]; cursor := cursor s |}.

(** Script computations: state passing, with exceptions that keep the
    state reached when they were raised. *)
Definition M (A : Type) : Type := run_state -> result A * run_state.

Definition ret {A} (a : A) : M A := fun s => (Ok a, s).

Definition bind {A B} (m : M A) (k : A -> M B) : M B :=
  fun s =>
    match m s with
    | (Ok a, s') => k a s'
    | (Raise e, s') => (Raise e, s')
    end.

Definition raise {A} (e : exception) : M A := fun s => (Raise e, s).

Definition lift {A} (r : result A) : M A := fun s => (r, s).

(** [try: body / except <classes>: handler]; [handler e = None] when no
    [except] clause matches [e], which then propagates. *)
Definition try_except {A} (body : M A) (handler : exception -> option (M A)) : M A :=
  fun s =>
    match body s with
    | (Ok a, s') => (Ok a, s')
    | (Raise e, s') =>
        match handler e with
        | Some h => h s'
        | None => (Raise e, s')
        end
    end.

(** [with container: body] *)
Definition within {A} (c : container) (body : M A) : M A :=
  fun s =>
    let '(r, s') := body (set_cursor (c :: cursor s) s) in
    (r, set_cursor (cursor s) s').

Definition emit (e : element) : M unit := fun s => (Ok tt, add_rendered e s).

Definition rerun {A} : M A := raise RerunException.

Definition get_session : M session_state := fun s => (Ok (session s), s).

Definition modify_session (f : session_state -> session_state) : M unit :=
  fun s => (Ok tt, set_session f s).

End Streamlit.
Export Streamlit.

Declare Scope script_scope.
Delimit Scope script_scope with script.
Notation "x <- m ;; k" := (bind m (fun x => k))
  (at level 100, m at next level, right associativity) : script_scope.
Notation "m ;; k" := (bind m (fun _ => k))
  (at level 100, right associativity) : script_scope.
Local Open Scope script_scope.

(** ** The world outside the script *)

(** What a pandas/plotly block hands to Streamlit before it finishes or
    raises. *)
Definition panel : Type := list data_widget * result unit.

Record environment : Type := Environment {
  (** [os.getenv(name)] after the optional [load_dotenv()] *)
  getenv : string -> option string;
  (** [int(s)] on a string: the integer it denotes, or [ValueError] *)
  builtin_int : string -> result Z;
  (** [str(v)] on floats, lists and dictionaries *)
  builtin_str : value -> string;
  (** [datetime.now().isoformat()] *)
  now_isoformat : string;
  (** [requests.post(url, json=.., timeout=..)] and
      [requests.get(url, timeout=..)]: a response or an exception *)
  requests_post : string -> value -> Z -> result response;
  requests_get : string -> Z -> result response;
  (** widget state sent by the browser for this run *)
  text_input_state : option string;
  slider_state : forall lo hi : Z, option (slider_position lo hi);
  button_clicked : string -> bool;
  chat_input_state : option string;
  (** lines 132-175: table, metrics and charts of a stored message *)
  history_table : dict -> panel;
  (** lines 225-260: table, metrics, download button and chart of a fresh
      result, from its [data] and [execution_time_ms] *)
  result_table : value -> value -> panel
}.

(** ** The script *)

Section Script.

Context (env : environment).

(** *** Built-ins *)

(** [str(v)], which is what an f-string applies to [{v}]; an integer is
    written in decimal. *)
Definition str (v : value) : string :=
  match v with
  | VStr s => s
  | VNone => "None"
  | VBool true => "True"
  | VBool false => "False"
  | VInt n => pretty n
  | _ => builtin_str env v
  end.

(** *** Streamlit calls *)

Definition st_error (body : string) : M unit := emit (Error body).
Definition st_info (body : string) : M unit := emit (Info body).
Definition st_success (body : string) : M unit := emit (Success body).
Definition st_markdown (body : value) : M unit := emit (Markdown body false).
Definition st_code (body : value) (language : string) : M unit := emit (Code body language).

Definition st_text_input (label value : string) : M string :=
  emit (TextInput label value) ;;
  ret (match text_input_state env with Some v => v | None => value end).

(** [st.slider] widens its bounds to take in the default.  It returns the
    browser's position, which lies within the widened bounds, or the
    default before the user has moved it. *)
Definition st_slider (label : string) (min_value max_value value : Z) : M Z :=
  emit (Slider label min_value max_value value) ;;
  ret (match slider_state env (Z.min min_value value) (Z.max max_value value) with
       | Some p => position p
       | None => value
       end).

Definition st_button (label key : string) : M bool :=
  emit (Button label key) ;; ret (button_clicked env key).

Definition st_chat_input (placeholder : string) : M (option string) :=
  emit (ChatInput placeholder) ;; ret (chat_input_state env).

Definition show_panel (p : panel) : M unit :=
  fold_right (fun w k => emit (Data w) ;; k) (lift (snd p)) (fst p).

Fixpoint for_each {A} (l : list A) (body : A -> M unit) : M unit :=
  match l with
  | [] => ret tt
  | x :: rest => body x ;; for_each rest body
  end.

(** *** [requests] calls, recorded as they are issued *)

Definition post (url : string) (json : value) (timeout : Z) : M response :=
  fun s => (requests_post env url json timeout, add_request (POST url json timeout) s).

Definition get_url (url : string) (timeout : Z) : M response :=
  fun s => (requests_get env url timeout, add_request (GET url timeout) s).

(** *** Session state *)

(** Lines 47-50. *)
Definition init_session_state : M unit :=
  modify_session (fun ss =>
    match messages ss with
    | None => set_messages (Some []) ss
    | Some _ => ss
    end) ;;
  modify_session (fun ss =>
    match query_history ss with
    | None => set_query_history (Some []) ss
    | Some _ => ss
    end).

(** [st.session_state.messages.append(m)] *)
Definition append_message (m : dict) : M unit :=
  ss <- get_session ;;
  match messages ss with
  | Some l => modify_session (set_messages (Some (l ++ [m])))
  | None => raise AttributeError
  end.

(** [st.session_state.query_history.append(h)] *)
Definition append_query_history (h : dict) : M unit :=
  ss <- get_session ;;
  match query_history ss with
  | Some l => modify_session (set_query_history (Some (l ++ [h])))
  | None => raise AttributeError
  end.

(** *** The two wrappers around the network calls *)

(** The [json=] argument of line 58. *)
Definition ask_body (question : string) : value :=
  VDict {[ "question" := VStr question ]}.

(** The banner of line 64. *)
Definition timeout_banner (API_TIMEOUT : Z) : string :=
  "⏱️ API Timeout: Request took longer than "
  +:+ str (VInt API_TIMEOUT)
  +:+ " seconds. Try increasing the timeout in the sidebar.".

(** [call_api], lines 53-68.  [API_BASE_URL] and [API_TIMEOUT] are the
    module-level widget values the function reads. *)
Definition call_api (API_BASE_URL : string) (API_TIMEOUT : Z) (question : string) : M value :=
  try_except
    (response <- post (API_BASE_URL +:+ "/ask") (ask_body question) API_TIMEOUT ;;
     lift (raise_for_status response) ;;
     lift (json response))
    (fun e =>
       match e with
       | Timeout _ =>
           Some (st_error (timeout_banner API_TIMEOUT) ;;
                 ret VNone)
       | RequestException msg =>
           Some (st_error ("API Error: " +:+ msg) ;;
                 ret VNone)
       | _ => None
       end).

(** [check_api_health], lines 71-77; the bare [except:] catches
    everything. *)
Definition check_api_health (API_BASE_URL : string) : M bool :=
  try_except
    (response <- get_url (API_BASE_URL +:+ "/health") 5 ;;
     ret (status_code response =? 200)%Z)
    (fun _ => Some (ret false)).

(** *** The sidebar, lines 85-116 *)

(** Lines 89-93. *)
Definition sidebar_health_check (API_BASE_URL : string) : M unit :=
  healthy <- check_api_health API_BASE_URL ;;
  if healthy then st_success "✅ API Connected"
  else
    st_error "❌ API Not Available" ;;
    st_info ("Please ensure the backend is running at " +:+ API_BASE_URL).

Definition quick_queries : list string :=
  [ "Show all abnormal tests for Lab 12 yesterday";
    "How many reports were generated this month?";
    "List abnormal parameters for male patients last week";
    "Compare abnormal test count by lab center";
    "Show test results trend over the last 30 days" ].

Definition quick_query_button (query : string) : M unit :=
  clicked <- st_button query ("quick_" +:+ slice_to 20 query) ;;
  if clicked then
    modify_session (set_current_question (Some query)) ;;
    rerun
  else ret tt.

Definition clear_label : string := "🗑️ Clear Chat History".

(** Lines 113-116; a button without [key] is identified by its label. *)
Definition clear_chat_history_button : M unit :=
  clicked <- st_button clear_label clear_label ;;
  if clicked then
    modify_session (set_messages (Some [])) ;;
    modify_session (set_query_history (Some [])) ;;
    rerun
  else ret tt.

Definition sidebar (API_BASE_URL : string) : M unit :=
  within Sidebar
    (emit (Header "⚙️ Configuration") ;;
     sidebar_health_check API_BASE_URL ;;
     emit Divider ;;
     emit (Header "📊 Quick Queries") ;;
     for_each quick_queries quick_query_button ;;
     emit Divider ;;
     clear_chat_history_button).

(** *** The chat history, lines 118-175 *)

Definition sql_expander : string := "📝 View SQL Query".

Definition display_message (message : dict) : M unit :=
  role <- lift (item message "role") ;;
  within (ChatMessage role)
    (content <- lift (item message "content") ;;
     st_markdown content ;;
     (if truthy (dict_get message "sql_query" VNone) then
        within (Expander sql_expander)
          (sql_query <- lift (item message "sql_query") ;;
           st_code sql_query "sql")
      else ret tt) ;;
     if truthy (dict_get message "data" VNone) then
       data <- lift (item message "data") ;;
       nonempty <- lift (len_gt_0 data) ;;
       if nonempty then show_panel (history_table env message) else ret tt
     else ret tt).

Definition display_chat_history : M unit :=
  within Container
    (ss <- get_session ;;
     match messages ss with
     | Some l => for_each l display_message
     | None => raise AttributeError
     end).

(** *** The question handler, lines 177-268 *)

(** Lines 178-182. *)
Definition next_question : M (option string) :=
  ss <- get_session ;;
  match current_question ss with
  | Some question =>
      modify_session (set_current_question None) ;;
      ret (Some question)
  | None => st_chat_input "Ask a question about lab data..."
  end.

(** The dictionary of line 186. *)
Definition user_message (question : string) : dict :=
  {[ "role" := VStr "user"; "content" := VStr question ]}.

(** [message_data], lines 203-210, for a result that is a dictionary. *)
Definition message_data (result : dict) : dict :=
  {[ "role" := VStr "assistant";
     "content" := dict_get result "answer" (VStr "");
     "sql_query" := dict_get result "sql_query" (VStr "");
     "data" := dict_get result "data" (VList []);
     "execution_time_ms" := dict_get result "execution_time_ms" (VInt 0);
     "row_count" := dict_get result "row_count" (VInt 0) ]}.

(** The dictionary of lines 212-216. *)
Definition history_entry (question : string) (result : dict) : dict :=
  {[ "question" := VStr question;
     "sql" := dict_get result "sql_query" (VStr "");
     "timestamp" := VStr (now_isoformat env) ]}.

Definition spinner_text : string :=
  "Analyzing your question and querying the database...".

Definition connect_failure : string :=
  "Failed to connect to API. Please check your configuration.".

(** Lines 199-262: a result whose [success] is true. *)
Definition show_success (question : string) (result : dict) : M unit :=
  st_markdown (dict_get result "answer" (VStr "Query executed successfully.")) ;;
  append_message (message_data result) ;;
  append_query_history (history_entry question result) ;;
  within (Expander sql_expander)
    (st_code (dict_get result "sql_query" (VStr "")) "sql") ;;
  let data := dict_get result "data" (VList []) in
  nonempty <- lift (len_gt_0 data) ;;
  if nonempty then
    show_panel (result_table env data (dict_get result "execution_time_ms" (VInt 0)))
  else st_info "No data returned from query.".

(** Lines 197-266: what is shown for the value [call_api] returned. *)
Definition show_result (question : string) (result : value) : M unit :=
  if truthy result then
    success <- lift (get result "success" VNone) ;;
    if truthy success then
      match result with
      | VDict d => show_success question d
      | _ => raise AttributeError
      end
    else
      error <- lift (get result "error" (VStr "Unknown error")) ;;
      st_error ("Query failed: " +:+ str error)
  else st_error connect_failure.

(** Lines 184-268, for a question that passed [if question:]. *)
Definition handle_question (API_BASE_URL : string) (API_TIMEOUT : Z) (question : string) : M unit :=
  append_message (user_message question) ;;
  within (ChatMessage (VStr "user")) (st_markdown (VStr question)) ;;
  within (ChatMessage (VStr "assistant"))
    (result <- within (Spinner spinner_text)
                 (call_api API_BASE_URL API_TIMEOUT question) ;;
     show_result question result) ;;
  rerun.

Definition footer : string := "
    <div style='text-align: center; color: gray;'>
        <small>Lab Intelligence Chatbot v1.0 | Built with FastAPI + Streamlit + OpenAI</small>
    </div>
    ".

(** *** One run of the script *)

(** Lines 80-279: the page below the two settings. *)
Definition main_ui (API_BASE_URL : string) (API_TIMEOUT : Z) : M unit :=
  emit (Title "🧪 Lab Intelligence Chatbot") ;;
  st_markdown (VStr "Ask questions about lab data in natural language and get instant insights!") ;;
  sidebar API_BASE_URL ;;
  display_chat_history ;;
  question <- next_question ;;
  match question with
  | Some q => if truthy (VStr q) then handle_question API_BASE_URL API_TIMEOUT q else ret tt
  | None => ret tt
  end ;;
  emit Divider ;;
  emit (Markdown (VStr footer) true).

(** Lines 21-50, then the page. *)
Definition script : M unit :=
  emit (PageConfig "Lab Intelligence Chatbot" "🧪" "wide" "expanded") ;;
  let default_api_url :=
    match getenv env "API_BASE_URL" with
    | Some u => u
    | None => "https://niro-chat-backend.onrender.com"
    end in
  API_BASE_URL <- within Sidebar (st_text_input "API Base URL" default_api_url) ;;
  default_timeout <- lift (builtin_int env (match getenv env "API_TIMEOUT" with
                                | Some t => t
                                | None => "60"
                                end)) ;;
  API_TIMEOUT <- within Sidebar (st_slider "API Timeout (seconds)" 10 300 default_timeout) ;;
  init_session_state ;;
  main_ui API_BASE_URL API_TIMEOUT.

End Script.

(** A run starts from the session left by the previous one, with nothing
    rendered and no request issued yet. *)
Definition start (ss : session_state) : run_state :=
  {| session := ss; rendered := []; requests := []; cursor := [] |}.

Definition run_script (env : environment) (ss : session_state) : result unit * run_state :=
  script env (start ss).

(** ** Vocabulary of the statements *)

(** What lines 56-62 yield, leaving aside the record of the request: the
    decoded body, or the exception raised by [requests.post], by
    [raise_for_status] or by [response.json]. *)
Definition request_outcome (env : environment) (API_BASE_URL : string)
    (API_TIMEOUT : Z) (question : string) : result value :=
  match requests_post env (API_BASE_URL +:+ "/ask") (ask_body question) API_TIMEOUT with
  | Ok response =>
      match raise_for_status response with
      | Ok _ => json response
      | Raise e => Raise e
      end
  | Raise e => Raise e
  end.

(** The slider's default, line 42: [int(os.getenv("API_TIMEOUT", "60"))]. *)
Definition default_timeout (env : environment) : result Z :=
  builtin_int env (match getenv env "API_TIMEOUT" with Some t => t | None => "60" end).

(** The value lines 38-44 bind to [API_TIMEOUT]. *)
Definition api_timeout (env : environment) : result Z :=
  match default_timeout env with
  | Ok d =>
      Ok (match slider_state env (Z.min 10 d) (Z.max 300 d) with
          | Some p => position p
          | None => d
          end)
  | Raise e => Raise e
  end.

(** The two lists of the session, an absent key counting as empty. *)
Definition messages_of (ss : session_state) : list dict :=
  match messages ss with Some l => l | None => [] end.

Definition history_of (ss : session_state) : list dict :=
  match query_history ss with Some l => l | None => [] end.

(** Both lists only got longer at the end. *)
Definition grows (s s' : run_state) : Prop :=
  messages_of (session s) `prefix_of` messages_of (session s') /\
  history_of (session s) `prefix_of` history_of (session s').

Definition cleared (ss : session_state) : Prop :=
  messages ss = Some [] /\ query_history ss = Some [].

(** The requests issued between two states all satisfy [P]. *)
Definition logged (P : http_request -> Prop) (s s' : run_state) : Prop :=
  exists l, requests s' = requests s ++ l /\ Forall P l.

(** A computation that relates every state to the one it ends in. *)
Definition keeps {A} (R : run_state -> run_state -> Prop) (m : M A) : Prop :=
  forall s, R s (snd (m s)).

(** The relations the script respects step by step: they are preorders,
    blind to the rendering cursor and to what is rendered, and survive the
    three session updates of an ordinary run. *)
Class Frame (R : run_state -> run_state -> Prop) : Prop := {
  frame_refl : forall s, R s s;
  frame_trans : forall s1 s2 s3, R s1 s2 -> R s2 s3 -> R s1 s3;
  frame_cursor : forall c s, R s (set_cursor c s);
  frame_rendered : forall e s, R s (add_rendered e s);
  frame_current_question : forall q s, R s (set_session (set_current_question q) s);
  frame_init_messages : forall s,
    messages (session s) = None -> R s (set_session (set_messages (Some [])) s);
  frame_init_history : forall s,
    query_history (session s) = None -> R s (set_session (set_query_history (Some [])) s);
  frame_append_message : forall m l s,
    messages (session s) = Some l -> R s (set_session (set_messages (Some (l ++ [m]))) s);
  frame_append_history : forall h l s,
    query_history (session s) = Some l ->
    R s (set_session (set_query_history (Some (l ++ [h]))) s)
}.

(** A computation under which the lists grow, unless it stops the run by
    the rerun of a clicked clear button, which leaves both empty. *)
Definition guarded {A} (env : environment) (m : M A) : Prop :=
  forall s,
    grows s (snd (m s)) \/
    (fst (m s) = Raise RerunException /\
     button_clicked env clear_label = true /\
     cleared (session (snd (m s)))).

(** A request carries the timeout the page is configured with: a POST the
    value bound to [API_TIMEOUT], which lies within the slider's bounds
    widened by its default [d]; a health probe the constant 5. *)
Definition timeout_as_configured (env : environment) (r : http_request) : Prop :=
  match r with
  | POST _ _ t =>
      exists d, default_timeout env = Ok d /\ api_timeout env = Ok t /\
                Z.min 10 d <= t <= Z.max 300 d
  | GET _ t => t = 5
  end.

(** The bounds the slider is declared with. *)
Definition timeout_within_declared_bounds (r : http_request) : Prop :=
  match r with
  | POST _ _ t => 10 <= t <= 300
  | GET _ t => t = 5
  end.

Definition is_warning (e : element) : bool :=
  match e with Warning _ => true | _ => false end.

Definition is_error (e : element) : bool :=
  match e with Error _ => true | _ => false end.

(** ** Sample worlds *)

Definition ok_response (body : value) : response :=
  {| status_code := 200; reason := "OK"; url := "http://backend/ask"; json := Ok body |}.

(** A world with the given chat submission, button state and backend
    behaviour, default widget state and no environment variables. *)
Definition world (chat : option string) (clicked : string -> bool)
    (on_post on_get : result response) : environment :=
  {| getenv := fun _ => None;
     builtin_int := fun s => if String.eqb s "60" then Ok 60 else Raise ValueError;
     builtin_str := fun _ => "[...]";
     now_isoformat := "2024-05-01T12:00:00";
     requests_post := fun _ _ _ => on_post;
     requests_get := fun _ _ => on_get;
     text_input_state := Some "http://backend";
     slider_state := fun _ _ => None;
     button_clicked := clicked;
     chat_input_state := chat;
     history_table := fun _ => ([], Ok tt);
     result_table := fun _ _ => ([Dataframe (VList [])], Ok tt) |}.

Definition nothing_clicked : string -> bool := fun _ => false.

Definition healthy : result response := Ok (ok_response VNone).

Definition empty_session : session_state :=
  {| messages := Some []; query_history := Some []; current_question := None |}.

Definition sample_question : string := "How many reports were generated this month?".

Definition sample_success : dict :=
  {[ "success" := VBool true;
     "answer" := VStr "42 reports were generated this month.";
     "sql_query" := VStr "SELECT COUNT(*) FROM reports";
     "data" := VList [];
     "row_count" := VInt 0 ]}.

Definition sample_no_answer : dict :=
  {[ "success" := VBool true; "sql_query" := VStr "SELECT 1" ]}.

Definition sample_failure : dict :=
  {[ "success" := VBool false; "error" := VStr "no such table: reports" ]}.

(** The backend answers the sample question with the given JSON object. *)
Definition answering (body : dict) : environment :=
  world (Some sample_question) nothing_clicked (Ok (ok_response (VDict body))) healthy.

Definition clear_clicked : string -> bool := fun key => String.eqb key clear_label.

Definition sample_session : session_state :=
  {| messages := Some [user_message sample_question; message_data sample_success];
     query_history := Some [history_entry (answering sample_success) sample_question sample_success];
     current_question := None |}.

Definition server_error_response (body : value) : response :=
  {| status_code := 500; reason := "Internal Server Error";
     url := "http://backend/ask"; json := Ok body |}.

(** ** A session as a sequence of runs *)

(** The session state a run leaves for the next one. *)
Definition next_session (env : environment) (ss : session_state) : session_state :=
  session (snd (run_script env ss)).

(** The session state after one run per world of [envs], in order. *)
Definition after_runs (envs : list environment) (ss : session_state) : session_state :=
  fold_left (fun ss env => next_session env ss) envs ss.

(** ** Further vocabulary *)

(** The key of the quick-query button of [query] (line 107). *)
Definition quick_key (query : string) : string := "quick_" +:+ slice_to 20 query.

(** The question lines 178-182 bind: the pending quick query when there
    is one, otherwise what the chat input returns. *)
Definition submitted_question (env : environment) (ss : session_state) : option string :=
  match current_question ss with
  | Some question => Some question
  | None => chat_input_state env
  end.

(** The value line 31 binds to [API_BASE_URL]. *)
Definition api_base_url (env : environment) : string :=
  match text_input_state env with
  | Some v => v
  | None =>
      match getenv env "API_BASE_URL" with
      | Some u => u
      | None => "https://niro-chat-backend.onrender.com"
      end
  end.

(** Render an element into the container [c] opened at the cursor of [s]. *)
Definition rendered_in (c : list container) (e : element) (s : run_state) : run_state :=
  {| session := session s; rendered := rendered s ++ [(c ++ cursor s, e)];
     requests := requests s; cursor := cursor s |}.

Definition sample_null_data : dict :=
  {[ "success" := VBool true; "answer" := VStr "Done."; "data" := VNone ]}.


(** What a run has rendered when the timeout setting stops it. *)
Definition settings_only (env : environment) : list (list container * element) :=
  [ ([], PageConfig "Lab Intelligence Chatbot" "🧪" "wide" "expanded");
    ([Sidebar],
     TextInput "API Base URL"
       (match getenv env "API_BASE_URL" with
        | Some u => u
        | None => "https://niro-chat-backend.onrender.com"
        end)) ].

(** The session once lines 47-50 have run. *)
Definition initialised (ss : session_state) : session_state :=
  {| messages := Some (messages_of ss);
     query_history := Some (history_of ss);
     current_question := current_question ss |}.

(** A world whose [API_TIMEOUT] variable holds [setting], which [int]
    reads as [value], and in which the sample question is submitted. *)
Definition world_with_timeout (setting : string) (value : result Z) : environment :=
  {| getenv := fun name => if String.eqb name "API_TIMEOUT" then Some setting else None;
     builtin_int := fun s => if String.eqb s setting then value else Raise ValueError;
     builtin_str := fun _ => "[...]";
     now_isoformat := "2024-05-01T12:00:00";
     requests_post := fun _ _ _ => Raise (RequestException "connection refused");
     requests_get := fun _ _ => healthy;
     text_input_state := Some "http://backend";
     slider_state := fun _ _ => None;
     button_clicked := nothing_clicked;
     chat_input_state := Some sample_question;
     history_table := fun _ => ([], Ok tt);
     result_table := fun _ _ => ([], Ok tt) |}.



Definition sample_unsized_data : dict :=
  {[ "success" := VBool true; "answer" := VStr "Done."; "data" := VInt 7 ]}.

(** Only the quick-query button of [query] is clicked. *)
Definition quick_clicked (query : string) : string -> bool :=
  fun key => String.eqb key (quick_key query).

(** A session in which a quick query is pending. *)
Definition pending_session (query : string) : session_state :=
  {| messages := Some []; query_history := Some []; current_question := Some query |}.

Definition sample_rows : dict :=
  {[ "success" := VBool true; "answer" := VStr "One lab.";
     "data" := VList [VDict {[ "lab" := VStr "Lab 12" ]}] ]}.

(** A world that answers the sample question with [sample_rows] and whose
    table block fails as [pd.DataFrame] would on malformed rows. *)
Definition world_with_failing_table : environment :=
  {| getenv := fun _ => None;
     builtin_int := fun s => if String.eqb s "60" then Ok 60 else Raise ValueError;
     builtin_str := fun _ => "[...]";
     now_isoformat := "2024-05-01T12:00:00";
     requests_post := fun _ _ _ => Ok (ok_response (VDict sample_rows));
     requests_get := fun _ _ => healthy;
     text_input_state := Some "http://backend";
     slider_state := fun _ _ => None;
     button_clicked := nothing_clicked;
     chat_input_state := Some sample_question;
     history_table := fun _ => ([], Ok tt);
     result_table := fun _ _ => ([], Raise ValueError) |}.

(** * Properties *)

(** ** Running the wrappers *)

(** Run the monadic plumbing, up to [show_result] ([enter]) or through it
    ([step]), leaving the calls into the world and the dictionaries
    folded. *)
Ltac enter :=
  cbv beta iota zeta delta
    [bind within ret lift emit raise rerun try_except get_session modify_session
     st_error st_info st_success st_markdown st_code append_message
     append_query_history handle_question
     session cursor rendered requests messages query_history current_question
     set_cursor add_rendered add_request set_session set_messages
     set_query_history set_current_question fst snd].

Ltac step :=
  cbv beta iota zeta delta
    [bind within ret lift emit raise rerun try_except get_session modify_session
     st_error st_info st_success st_markdown st_code append_message
     append_query_history handle_question show_result show_success get
     session cursor rendered requests messages query_history current_question
     set_cursor add_rendered add_request set_session set_messages
     set_query_history set_current_question fst snd].

Lemma call_api_run env base t q s :
  call_api env base t q s =
  let s1 := add_request (POST (base +:+ "/ask") (ask_body q) t) s in
  match request_outcome env base t q with
  | Ok body => (Ok body, s1)
  | Raise (Timeout _) => (Ok VNone, add_rendered (Error (timeout_banner env t)) s1)
  | Raise (RequestException msg) => (Ok VNone, add_rendered (Error ("API Error: " +:+ msg)) s1)
  | Raise e => (Raise e, s1)
  end.
Proof.
  unfold call_api, request_outcome, try_except, bind, post, lift, st_error, emit, ret.
  destruct (requests_post env _ _ _) as [r|e]; cbn.
  - destruct (raise_for_status r) as [[]|e]; cbn.
    + destruct (json r) as [v|e]; [done|]. by destruct e.
    + by destruct e.
  - by destruct e.
Qed.

Lemma check_api_health_run env base s :
  check_api_health env base s =
  (Ok (match requests_get env (base +:+ "/health") 5 with
       | Ok response => (status_code response =? 200)%Z
       | Raise _ => false
       end),
   add_request (GET (base +:+ "/health") 5) s).
Proof.
  unfold check_api_health, try_except, bind, get_url, ret.
  by destruct (requests_get env _ _).
Qed.

Lemma show_panel_run (p : panel) s :
  show_panel p s =
  (snd p, fold_left (fun s w => add_rendered (Data w) s) (fst p) s).
Proof.
  destruct p as [ws r]. unfold show_panel. cbn [fst snd].
  revert s. induction ws as [|w ws IH]; intros s; [done|].
  cbn [fold_right fold_left]. unfold bind at 1, emit at 1. apply IH.
Qed.

Lemma truthy_dict_nonempty (d : dict) (key : string) :
  is_Some (d !! key) -> truthy (VDict d) = true.
Proof.
  intros [v Hv]. cbn. destruct (decide (d = ∅)) as [->|Hne].
  - by rewrite lookup_empty in Hv.
  - by rewrite bool_decide_eq_false_2.
Qed.

Lemma truthy_success_nonempty (d : dict) :
  truthy (dict_get d "success" VNone) = true -> truthy (VDict d) = true.
Proof.
  unfold dict_get. intros H. apply (truthy_dict_nonempty d "success").
  destruct (d !! "success"); [eauto | discriminate].
Qed.

Lemma timeout_banner_not_api_error env t msg :
  timeout_banner env t <> "API Error: " +:+ msg.
Proof. unfold timeout_banner. cbn. discriminate. Qed.

(** ** [call_api] *)

(** C4, as amended.  [call_api] records one POST.  When the request raises
    a timeout it shows the timeout banner and returns [None]; when it
    raises another request exception it shows the [API Error] banner,
    which is a different text, and returns [None]; when the request
    completes it returns the decoded body as it is and shows nothing.  So it
    returns [None] exactly when a request exception was raised or the
    decoded body is itself [None]. *)
Theorem call_api_outcomes env base t q s :
  let s1 := add_request (POST (base +:+ "/ask") (ask_body q) t) s in
  (forall msg, request_outcome env base t q = Raise (Timeout msg) ->
     call_api env base t q s = (Ok VNone, add_rendered (Error (timeout_banner env t)) s1)) /\
  (forall msg, request_outcome env base t q = Raise (RequestException msg) ->
     call_api env base t q s = (Ok VNone, add_rendered (Error ("API Error: " +:+ msg)) s1) /\
     timeout_banner env t <> "API Error: " +:+ msg) /\
  (forall body, request_outcome env base t q = Ok body ->
     call_api env base t q s = (Ok body, s1)) /\
  (fst (call_api env base t q s) = Ok VNone <->
     (exists msg, request_outcome env base t q = Raise (Timeout msg)) \/
     (exists msg, request_outcome env base t q = Raise (RequestException msg)) \/
     request_outcome env base t q = Ok VNone).
Proof.
  intros s1. rewrite call_api_run. fold s1.
  split; [by intros msg ->|].
  split; [intros msg ->; split; [done|apply timeout_banner_not_api_error]|].
  split; [by intros body ->|].
  split.
  - destruct (request_outcome env base t q) as [v|[]]; cbn; intros H;
      inversion H; subst; eauto.
  - intros [[msg ->]|[[msg ->]| ->]]; done.
Qed.

Lemma call_api_outcomes_witness :
  call_api (world None nothing_clicked (Raise (Timeout "read timed out")) healthy)
    "http://backend" 60 "How many reports?" (start empty_session) =
  (Ok VNone,
   add_rendered
     (Error (timeout_banner (world None nothing_clicked (Raise (Timeout "read timed out")) healthy) 60))
     (add_request (POST "http://backend/ask" (ask_body "How many reports?") 60)
        (start empty_session))).
Proof.
  apply (proj1 (call_api_outcomes
                  (world None nothing_clicked (Raise (Timeout "read timed out")) healthy)
                  "http://backend" 60 "How many reports?" (start empty_session))
           "read timed out").
  reflexivity.
Defined.

(** C4, counterexample: a 200 response whose body is the JSON value [null]
    makes [call_api] return [None] although nothing was raised and no banner
    was shown. *)
Lemma call_api_none_without_exception :
  let env := world None nothing_clicked (Ok (ok_response VNone)) healthy in
  request_outcome env "http://backend" 60 "How many reports?" = Ok VNone /\
  call_api env "http://backend" 60 "How many reports?" (start empty_session) =
    (Ok VNone,
     add_request (POST "http://backend/ask" (ask_body "How many reports?") 60)
       (start empty_session)) /\
  ~ ((exists msg, request_outcome env "http://backend" 60 "How many reports?" = Raise (Timeout msg)) \/
     (exists msg, request_outcome env "http://backend" 60 "How many reports?" = Raise (RequestException msg))).
Proof.
  cbv zeta. split; [reflexivity|]. split; [reflexivity|].
  intros [[msg H]|[msg H]]; discriminate H.
Qed.

(** ** [check_api_health] *)

(** C5.  [check_api_health] never raises; it returns [True] if and only if
    the GET to [{base_url}/health] completes with status 200, and [False]
    whenever the request raises. *)
Theorem check_api_health_iff_200 env base s :
  exists b : bool,
    check_api_health env base s = (Ok b, add_request (GET (base +:+ "/health") 5) s) /\
    (b = true <->
       exists response, requests_get env (base +:+ "/health") 5 = Ok response /\
                        status_code response = 200) /\
    ((exists e, requests_get env (base +:+ "/health") 5 = Raise e) -> b = false).
Proof.
  rewrite check_api_health_run.
  destruct (requests_get env _ _) as [r|e]; eexists; (split; [reflexivity|]); split.
  - rewrite Z.eqb_eq. split; [eauto|]. by intros (r' & [= <-] & ?).
  - by intros [e [=]].
  - split; [done|]. by intros (r' & [=] & ?).
  - done.
Qed.

Lemma check_api_health_iff_200_witness :
  exists b : bool,
    check_api_health (world None nothing_clicked healthy healthy) "http://backend"
      (start empty_session) =
      (Ok b, add_request (GET "http://backend/health" 5) (start empty_session)) /\
    b = true.
Proof.
  destruct (check_api_health_iff_200 (world None nothing_clicked healthy healthy)
              "http://backend" (start empty_session)) as (b & Hrun & Hiff & _).
  exists b. split; [exact Hrun|].
  apply Hiff. exists (ok_response VNone). split; reflexivity.
Defined.

(** ** Relations kept by every step *)

Create HintDb keeps.

Section Frames.

Context (R : run_state -> run_state -> Prop) `{!Frame R}.

Lemma keeps_ret {A} (a : A) : keeps R (ret a).
Proof. intros s. apply frame_refl. Qed.

Lemma keeps_raise {A} e : keeps R (@raise A e).
Proof. intros s. apply frame_refl. Qed.

Lemma keeps_lift {A} (r : result A) : keeps R (lift r).
Proof. intros s. apply frame_refl. Qed.

Lemma keeps_emit e : keeps R (emit e).
Proof. intros s. apply frame_rendered. Qed.

Lemma keeps_get_session : keeps R get_session.
Proof. intros s. apply frame_refl. Qed.

Lemma keeps_bind {A B} (m : M A) (k : A -> M B) :
  keeps R m -> (forall a, keeps R (k a)) -> keeps R (bind m k).
Proof.
  intros Hm Hk s. unfold bind. specialize (Hm s).
  destruct (m s) as [[a|e] s'] eqn:E; cbn in *; [|done].
  eapply frame_trans; [exact Hm|apply Hk].
Qed.

Lemma keeps_within {A} c (m : M A) : keeps R m -> keeps R (within c m).
Proof.
  intros Hm s. unfold within.
  specialize (Hm (set_cursor (c :: cursor s) s)).
  destruct (m _) as [r s']; cbn in *.
  eapply frame_trans; [apply frame_cursor|].
  eapply frame_trans; [exact Hm|apply frame_cursor].
Qed.

Lemma keeps_try_except {A} (m : M A) handler :
  keeps R m -> (forall e h, handler e = Some h -> keeps R h) ->
  keeps R (try_except m handler).
Proof.
  intros Hm Hh s. unfold try_except. specialize (Hm s).
  destruct (m s) as [[a|e] s']; cbn in *; [done|].
  destruct (handler e) as [h|] eqn:E; [|done].
  eapply frame_trans; [exact Hm|by eapply Hh].
Qed.

Lemma keeps_if {A} (b : bool) (m1 m2 : M A) :
  keeps R m1 -> keeps R m2 -> keeps R (if b then m1 else m2).
Proof. by destruct b. Qed.

Lemma keeps_for_each {A} (l : list A) body :
  (forall x, keeps R (body x)) -> keeps R (for_each l body).
Proof.
  intros Hb. induction l as [|x l IH]; cbn [for_each].
  - apply keeps_ret.
  - apply keeps_bind; [apply Hb|done].
Qed.

Lemma keeps_show_panel p : keeps R (show_panel p).
Proof.
  destruct p as [ws r]. unfold show_panel. cbn [fst snd].
  induction ws as [|w ws IH]; cbn [fold_right].
  - apply keeps_lift.
  - apply keeps_bind; [apply keeps_emit|done].
Qed.

Lemma keeps_append_message m : keeps R (append_message m).
Proof.
  intros s. unfold append_message, bind, get_session, modify_session, raise.
  destruct (messages (session s)) as [l|] eqn:E; cbn.
  - by apply frame_append_message.
  - apply frame_refl.
Qed.

Lemma keeps_append_query_history h : keeps R (append_query_history h).
Proof.
  intros s. unfold append_query_history, bind, get_session, modify_session, raise.
  destruct (query_history (session s)) as [l|] eqn:E; cbn.
  - by apply frame_append_history.
  - apply frame_refl.
Qed.

Lemma keeps_init_session_state : keeps R init_session_state.
Proof.
  unfold init_session_state. apply keeps_bind; [|intros _]; intros s;
    unfold modify_session; cbn.
  - unfold set_session. destruct (messages (session s)) eqn:E.
    + destruct s; apply frame_refl.
    + by apply frame_init_messages.
  - unfold set_session. destruct (query_history (session s)) eqn:E.
    + destruct s; apply frame_refl.
    + by apply frame_init_history.
Qed.

#[local] Hint Resolve keeps_ret keeps_raise keeps_lift keeps_emit keeps_get_session
  keeps_within keeps_show_panel keeps_append_message keeps_append_query_history
  keeps_init_session_state : keeps.

Ltac keeps :=
  repeat first
    [ progress intros
    | solve [eauto with keeps]
    | apply keeps_bind
    | apply keeps_within
    | apply keeps_if
    | apply keeps_for_each
    | match goal with
      | |- keeps _ (match ?x with _ => _ end) => destruct x
      end ].

Lemma keeps_st_text_input env label value : keeps R (st_text_input env label value).
Proof. unfold st_text_input. keeps. Qed.

Lemma keeps_st_slider env label lo hi value : keeps R (st_slider env label lo hi value).
Proof. unfold st_slider. keeps. Qed.

Lemma keeps_st_button env label key : keeps R (st_button env label key).
Proof. unfold st_button. keeps. Qed.

Lemma keeps_st_chat_input env placeholder : keeps R (st_chat_input env placeholder).
Proof. unfold st_chat_input. keeps. Qed.

Lemma keeps_set_current_question q :
  keeps R (modify_session (set_current_question q)).
Proof. intros s. apply frame_current_question. Qed.

#[local] Hint Resolve keeps_st_text_input keeps_st_slider keeps_st_button
  keeps_st_chat_input keeps_set_current_question : keeps.

Lemma keeps_call_api env base t q :
  keeps R (post env (base +:+ "/ask") (ask_body q) t) ->
  keeps R (call_api env base t q).
Proof.
  intros Hp. unfold call_api. apply keeps_try_except.
  - keeps.
  - intros e h. destruct e; intros [= <-]; unfold st_error; keeps.
Qed.

Lemma keeps_check_api_health env base :
  keeps R (get_url env (base +:+ "/health") 5) ->
  keeps R (check_api_health env base).
Proof.
  intros Hg. unfold check_api_health. apply keeps_try_except.
  - keeps.
  - intros e h [= <-]. keeps.
Qed.

Lemma keeps_show_result env q v : keeps R (show_result env q v).
Proof.
  unfold show_result, show_success, st_error, st_markdown, st_code, st_info. keeps.
Qed.

Lemma keeps_handle_question env base t q :
  keeps R (post env (base +:+ "/ask") (ask_body q) t) ->
  keeps R (handle_question env base t q).
Proof.
  intros Hp. unfold handle_question, st_markdown, rerun.
  pose proof (keeps_call_api env base t q Hp).
  pose proof (keeps_show_result env q).
  keeps.
Qed.

Lemma keeps_display_chat_history env : keeps R (display_chat_history env).
Proof.
  unfold display_chat_history, display_message, st_markdown, st_code. keeps.
Qed.

Lemma keeps_next_question env : keeps R (next_question env).
Proof. unfold next_question. keeps. Qed.

Lemma keeps_quick_query_button env query : keeps R (quick_query_button env query).
Proof. unfold quick_query_button, rerun. keeps. Qed.

Lemma keeps_sidebar_health_check env base :
  keeps R (get_url env (base +:+ "/health") 5) ->
  keeps R (sidebar_health_check env base).
Proof.
  intros Hg. pose proof (keeps_check_api_health env base Hg).
  unfold sidebar_health_check, st_success, st_error, st_info. keeps.
Qed.

Lemma keeps_sidebar env base :
  keeps R (get_url env (base +:+ "/health") 5) ->
  keeps R (clear_chat_history_button env) ->
  keeps R (sidebar env base).
Proof.
  intros Hg Hc. pose proof (keeps_sidebar_health_check env base Hg).
  pose proof (keeps_quick_query_button env).
  unfold sidebar. keeps.
Qed.

Lemma keeps_main_ui env base t :
  keeps R (get_url env (base +:+ "/health") 5) ->
  keeps R (clear_chat_history_button env) ->
  (forall q, keeps R (post env (base +:+ "/ask") (ask_body q) t)) ->
  keeps R (main_ui env base t).
Proof.
  intros Hg Hc Hp. pose proof (keeps_sidebar env base Hg Hc).
  pose proof (keeps_display_chat_history env).
  pose proof (keeps_next_question env).
  pose proof (fun q => keeps_handle_question env base t q (Hp q)).
  unfold main_ui, st_markdown. keeps.
Qed.

End Frames.

Lemma keeps_bind_result {A B} R `{!Frame R} (Q : A -> Prop) (m : M A) (k : A -> M B) :
  keeps R m ->
  (forall s a s', m s = (Ok a, s') -> Q a) ->
  (forall a, Q a -> keeps R (k a)) ->
  keeps R (bind m k).
Proof.
  intros Hm HQ Hk s. unfold bind. specialize (Hm s). specialize (HQ s).
  destruct (m s) as [[a|e] s']; cbn in *; [|done].
  eapply frame_trans; [exact Hm|]. apply Hk. by eapply HQ.
Qed.

(** ** The session lists only grow *)

#[local] Instance grows_frame : Frame grows.
Proof.
  split; unfold grows, messages_of, history_of.
  - done.
  - intros s1 s2 s3 [? ?] [? ?]. split; by etrans.
  - done.
  - done.
  - done.
  - intros s ->. cbn. split; [apply prefix_nil|done].
  - intros s ->. cbn. split; [done|apply prefix_nil].
  - intros m l s ->. cbn. split; [by apply prefix_app_r|done].
  - intros h l s ->. cbn. split; [done|by apply prefix_app_r].
Qed.

Lemma grows_post env url body t : keeps grows (post env url body t).
Proof. by intros s. Qed.

Lemma grows_get_url env url t : keeps grows (get_url env url t).
Proof. by intros s. Qed.

(** ** The requests that are issued *)

#[local] Instance logged_frame P : Frame (logged P).
Proof.
  split; unfold logged.
  - intros s. exists []. by rewrite app_nil_r.
  - intros s1 s2 s3 (l1 & -> & H1) (l2 & -> & H2). exists (l1 ++ l2).
    split; [by rewrite app_assoc|by apply Forall_app].
  - intros c s. exists []. by rewrite app_nil_r.
  - intros e s. exists []. by rewrite app_nil_r.
  - intros q s. exists []. by rewrite app_nil_r.
  - intros s _. exists []. by rewrite app_nil_r.
  - intros s _. exists []. by rewrite app_nil_r.
  - intros m l s _. exists []. by rewrite app_nil_r.
  - intros h l s _. exists []. by rewrite app_nil_r.
Qed.

Lemma logged_post P env url body t :
  P (POST url body t) -> keeps (logged P) (post env url body t).
Proof. intros HP s. exists [POST url body t]. split; [done|by apply Forall_singleton]. Qed.

Lemma logged_get_url P env url t :
  P (GET url t) -> keeps (logged P) (get_url env url t).
Proof. intros HP s. exists [GET url t]. split; [done|by apply Forall_singleton]. Qed.

Lemma logged_nothing s s' : logged (fun _ => False) s s' -> requests s' = requests s.
Proof.
  intros (l & -> & Hl). destruct l as [|r l]; [by rewrite app_nil_r|].
  by apply Forall_cons in Hl as [[] _].
Qed.

(** ** The sidebar health check *)

(** C6, as amended.  When the health check fails, the sidebar shows the
    error banner [API Not Available] followed by an info banner naming the
    backend; nothing else is rendered, in particular no warning banner, and
    the script goes on. *)
Theorem health_failure_banners env base s :
  fst (check_api_health env base s) = Ok false ->
  sidebar_health_check env base s =
  (Ok tt,
   add_rendered (Info ("Please ensure the backend is running at " +:+ base))
     (add_rendered (Error "❌ API Not Available")
        (add_request (GET (base +:+ "/health") 5) s))).
Proof.
  rewrite check_api_health_run. cbn [fst]. intros [= H].
  unfold sidebar_health_check, bind. rewrite check_api_health_run, H. reflexivity.
Qed.

Lemma health_failure_banners_witness :
  sidebar_health_check
    (world None nothing_clicked healthy (Raise (RequestException "connection refused")))
    "http://backend" (start empty_session) =
  (Ok tt,
   add_rendered (Info "Please ensure the backend is running at http://backend")
     (add_rendered (Error "❌ API Not Available")
        (add_request (GET "http://backend/health" 5) (start empty_session)))).
Proof.
  apply (health_failure_banners
           (world None nothing_clicked healthy (Raise (RequestException "connection refused")))
           "http://backend" (start empty_session)).
  reflexivity.
Defined.

(** C6, counterexample: with a backend that refuses the connection the
    health check fails, and the only banner of either kind in the whole
    page is an error banner, not a warning. *)
Lemma health_failure_is_an_error_banner :
  let env := world None nothing_clicked healthy (Raise (RequestException "connection refused")) in
  fst (check_api_health env "http://backend" (start empty_session)) = Ok false /\
  List.filter (fun e => is_error e || is_warning e)
    (map snd (rendered (snd (run_script env empty_session)))) =
  [Error "❌ API Not Available"].
Proof. split; vm_compute; reflexivity. Qed.

(** ** The question handler *)

(** C1, as amended.  When the request times out, the handler has appended
    the user's question to the message list and appends nothing else: no
    assistant message, and the query history is untouched.  It shows the
    question, the timeout banner of [call_api] and the connection-failure
    banner, both error banners, and reruns. *)
Theorem timeout_keeps_only_the_question env base t q s msgs msg :
  messages (session s) = Some msgs ->
  request_outcome env base t q = Raise (Timeout msg) ->
  handle_question env base t q s =
  (Raise RerunException,
   {| session := set_messages (Some (msgs ++ [user_message q])) (session s);
      rendered :=
        rendered s ++
        [ (ChatMessage (VStr "user") :: cursor s, Markdown (VStr q) false);
          (Spinner spinner_text :: ChatMessage (VStr "assistant") :: cursor s,
           Error (timeout_banner env t));
          (ChatMessage (VStr "assistant") :: cursor s, Error connect_failure) ];
      requests := requests s ++ [POST (base +:+ "/ask") (ask_body q) t];
      cursor := cursor s |}).
Proof.
  intros Hm Ho. destruct s as [[ms qh cq] rd rq cur]. cbn in Hm. subst ms.
  enter. rewrite call_api_run, Ho. step. cbn [truthy]. cbv iota.
  by rewrite <- !app_assoc.
Qed.

Lemma timeout_keeps_only_the_question_witness :
  messages
    (session
       (snd (handle_question
               (world (Some "How many reports?") nothing_clicked
                  (Raise (Timeout "read timed out")) healthy)
               "http://backend" 60 "How many reports?" (start empty_session)))) =
  Some [user_message "How many reports?"].
Proof.
  rewrite (timeout_keeps_only_the_question
             (world (Some "How many reports?") nothing_clicked
                (Raise (Timeout "read timed out")) healthy)
             "http://backend" 60 "How many reports?" (start empty_session) []
             "read timed out"); reflexivity.
Defined.

(** C1, counterexample: after a timeout the message list is not what it
    was; it has gained the user's question, and the page shows two error
    banners. *)
Lemma timeout_appends_the_question :
  let env := world (Some "How many reports?") nothing_clicked
               (Raise (Timeout "read timed out")) healthy in
  let s' := snd (run_script env empty_session) in
  messages (session s') = Some [user_message "How many reports?"] /\
  messages (session s') <> messages empty_session /\
  List.filter is_error (map snd (rendered s')) =
  [Error (timeout_banner env 60); Error connect_failure].
Proof.
  cbv zeta. split; [|split].
  - vm_compute. reflexivity.
  - vm_compute. discriminate.
  - vm_compute. reflexivity.
Qed.

Lemma message_data_role d : message_data d !! "role" = Some (VStr "assistant").
Proof. unfold message_data. by simplify_map_eq. Qed.

Lemma message_data_content d :
  message_data d !! "content" = Some (dict_get d "answer" (VStr "")).
Proof. unfold message_data. by simplify_map_eq. Qed.

Lemma user_message_content q : user_message q !! "content" = Some (VStr q).
Proof. unfold user_message. by simplify_map_eq. Qed.

(** What a successful answer leaves behind, up to the table and charts
    rendered after it. *)
Lemma success_run env base t q s msgs qh d :
  messages (session s) = Some msgs ->
  query_history (session s) = Some qh ->
  request_outcome env base t q = Ok (VDict d) ->
  truthy (dict_get d "success" VNone) = true ->
  exists r tail,
    handle_question env base t q s =
    (r,
     {| session :=
          set_query_history (Some (qh ++ [history_entry env q d]))
            (set_messages (Some (msgs ++ [user_message q; message_data d])) (session s));
        rendered :=
          rendered s ++
          [ (ChatMessage (VStr "user") :: cursor s, Markdown (VStr q) false);
            (ChatMessage (VStr "assistant") :: cursor s,
             Markdown (dict_get d "answer" (VStr "Query executed successfully.")) false);
            (Expander sql_expander :: ChatMessage (VStr "assistant") :: cursor s,
             Code (dict_get d "sql_query" (VStr "")) "sql") ] ++ tail;
        requests := requests s ++ [POST (base +:+ "/ask") (ask_body q) t];
        cursor := cursor s |}).
Proof.
  intros Hm Hq Ho Hs.
  pose proof (truthy_success_nonempty d Hs) as Ht.
  destruct s as [[ms qh' cq] rd rq cur]. cbn in Hm, Hq. subst.
  step. rewrite call_api_run, Ho. step. rewrite Ht. step. rewrite Hs. step.
  destruct (len_gt_0 (dict_get d "data" (VList []))) as [[|]|e].
  - rewrite show_panel_run.
    destruct (result_table env _ _) as [ws r]. cbn [fst snd].
    assert (Hfold : forall ws s1,
      fold_left (fun s w => add_rendered (Data w) s) ws s1 =
      {| session := session s1;
         rendered := rendered s1 ++ map (fun w => (cursor s1, Data w)) ws;
         requests := requests s1; cursor := cursor s1 |}).
    { clear. induction ws as [|w ws IH]; intros [ss rd rq cur]; cbn.
      - by rewrite app_nil_r.
      - rewrite IH. cbn. by rewrite <- app_assoc. }
    rewrite Hfold. cbn.
    destruct r; eexists _, _; cbn; rewrite <- !app_assoc; cbn; reflexivity.
  - eexists _, [_]. cbn. rewrite <- !app_assoc. cbn. reflexivity.
  - eexists _, []. cbn. rewrite <- !app_assoc. cbn. reflexivity.
Qed.

(** C2, as amended.  When the response has [success: true], the message
    list gains exactly two entries: the user's question, then one assistant
    entry whose content is the response's [answer] field; the query history
    gains one entry, and the question and the answer are rendered. *)
Theorem success_appends_question_then_answer env base t q s msgs qh d :
  messages (session s) = Some msgs ->
  query_history (session s) = Some qh ->
  request_outcome env base t q = Ok (VDict d) ->
  d !! "success" = Some (VBool true) ->
  let s' := snd (handle_question env base t q s) in
  messages (session s') = Some (msgs ++ [user_message q; message_data d]) /\
  user_message q !! "content" = Some (VStr q) /\
  message_data d !! "role" = Some (VStr "assistant") /\
  (forall answer, d !! "answer" = Some answer ->
     message_data d !! "content" = Some answer) /\
  query_history (session s') = Some (qh ++ [history_entry env q d]) /\
  (exists tail,
     rendered s' =
     rendered s ++
     [ (ChatMessage (VStr "user") :: cursor s, Markdown (VStr q) false);
       (ChatMessage (VStr "assistant") :: cursor s,
        Markdown (dict_get d "answer" (VStr "Query executed successfully.")) false) ]
     ++ tail).
Proof.
  intros Hm Hq Ho Hs s'.
  destruct (success_run env base t q s msgs qh d Hm Hq Ho) as (r & tail & Hrun).
  { unfold dict_get. by rewrite Hs. }
  subst s'. rewrite Hrun. cbn.
  split; [done|]. split; [apply user_message_content|].
  split; [apply message_data_role|].
  split; [|split; [done|]].
  - intros answer Ha. rewrite message_data_content. unfold dict_get. by rewrite Ha.
  - eexists. reflexivity.
Qed.

Lemma success_appends_question_then_answer_witness :
  messages
    (session
       (snd (handle_question (answering sample_success) "http://backend" 60
               sample_question (start empty_session)))) =
  Some [user_message sample_question; message_data sample_success].
Proof.
  apply (success_appends_question_then_answer (answering sample_success)
           "http://backend" 60 sample_question (start empty_session) [] []
           sample_success); reflexivity.
Defined.

(** C2, counterexample: a [success: true] response makes the message list
    two entries longer, not one. *)
Lemma success_adds_two_messages :
  let s' := snd (run_script (answering sample_success) empty_session) in
  messages (session s') =
    Some [user_message sample_question; message_data sample_success] /\
  length (messages_of (session s')) = (length (messages_of empty_session) + 2)%nat /\
  length (messages_of (session s')) <> (length (messages_of empty_session) + 1)%nat.
Proof.
  cbv zeta. split; [|split].
  - vm_compute. reflexivity.
  - vm_compute. reflexivity.
  - vm_compute. discriminate.
Qed.

(** C9.  When the response has [success: true] and no [answer] field, the
    assistant turn is rendered as "Query executed successfully." while the
    message stored for it has the empty string as content: what is stored
    is not what was shown. *)
Theorem missing_answer_shown_but_not_stored env base t q s msgs qh d :
  messages (session s) = Some msgs ->
  query_history (session s) = Some qh ->
  request_outcome env base t q = Ok (VDict d) ->
  d !! "success" = Some (VBool true) ->
  d !! "answer" = None ->
  let s' := snd (handle_question env base t q s) in
  (exists tail,
     rendered s' =
     rendered s ++
     [ (ChatMessage (VStr "user") :: cursor s, Markdown (VStr q) false);
       (ChatMessage (VStr "assistant") :: cursor s,
        Markdown (VStr "Query executed successfully.") false) ]
     ++ tail) /\
  (exists stored,
     messages (session s') = Some (msgs ++ [user_message q; stored]) /\
     stored !! "role" = Some (VStr "assistant") /\
     stored !! "content" = Some (VStr "")) /\
  VStr "" <> VStr "Query executed successfully.".
Proof.
  intros Hm Hq Ho Hs Ha s'.
  destruct (success_run env base t q s msgs qh d Hm Hq Ho) as (r & tail & Hrun).
  { unfold dict_get. by rewrite Hs. }
  subst s'. rewrite Hrun. cbn. split; [|split; [|done]].
  - eexists. unfold dict_get at 1. rewrite Ha. reflexivity.
  - exists (message_data d). split; [done|]. split; [apply message_data_role|].
    rewrite message_data_content. unfold dict_get. by rewrite Ha.
Qed.

Lemma missing_answer_shown_but_not_stored_witness :
  exists stored,
    messages
      (session
         (snd (handle_question (answering sample_no_answer) "http://backend" 60
                 sample_question (start empty_session)))) =
    Some ([] ++ [user_message sample_question; stored]) /\
    stored !! "role" = Some (VStr "assistant") /\
    stored !! "content" = Some (VStr "").
Proof.
  apply (missing_answer_shown_but_not_stored (answering sample_no_answer)
           "http://backend" 60 sample_question (start empty_session) [] []
           sample_no_answer); reflexivity.
Defined.

(** What an application-level failure leaves behind. *)
Lemma failure_run env base t q s msgs d :
  messages (session s) = Some msgs ->
  request_outcome env base t q = Ok (VDict d) ->
  truthy (VDict d) = true ->
  truthy (dict_get d "success" VNone) = false ->
  handle_question env base t q s =
  (Raise RerunException,
   {| session := set_messages (Some (msgs ++ [user_message q])) (session s);
      rendered :=
        rendered s ++
        [ (ChatMessage (VStr "user") :: cursor s, Markdown (VStr q) false);
          (ChatMessage (VStr "assistant") :: cursor s,
           Error ("Query failed: " +:+ str env (dict_get d "error" (VStr "Unknown error")))) ];
      requests := requests s ++ [POST (base +:+ "/ask") (ask_body q) t];
      cursor := cursor s |}).
Proof.
  intros Hm Ho Ht Hs. destruct s as [[ms qh cq] rd rq cur]. cbn in Hm. subst ms.
  step. rewrite call_api_run, Ho. step. rewrite Ht. step. rewrite Hs. step.
  by rewrite <- !app_assoc.
Qed.

(** C3, as amended.  When the request completes and the decoded response
    has [success: false], the handler shows one error banner whose text is
    "Query failed: " followed by the response's [error] field as it is;
    the message list gains only the user's question. *)
Theorem failure_shows_prefixed_error env base t q s msgs d error :
  messages (session s) = Some msgs ->
  request_outcome env base t q = Ok (VDict d) ->
  d !! "success" = Some (VBool false) ->
  d !! "error" = Some (VStr error) ->
  handle_question env base t q s =
  (Raise RerunException,
   {| session := set_messages (Some (msgs ++ [user_message q])) (session s);
      rendered :=
        rendered s ++
        [ (ChatMessage (VStr "user") :: cursor s, Markdown (VStr q) false);
          (ChatMessage (VStr "assistant") :: cursor s,
           Error ("Query failed: " +:+ error)) ];
      requests := requests s ++ [POST (base +:+ "/ask") (ask_body q) t];
      cursor := cursor s |}).
Proof.
  intros Hm Ho Hs He.
  rewrite (failure_run env base t q s msgs d Hm Ho).
  - unfold dict_get. by rewrite He.
  - apply (truthy_dict_nonempty d "success"). by rewrite Hs.
  - unfold dict_get. by rewrite Hs.
Qed.

Lemma failure_shows_prefixed_error_witness :
  List.filter is_error
    (map snd
       (rendered
          (snd (handle_question (answering sample_failure) "http://backend" 60
                  sample_question (start empty_session))))) =
  [Error "Query failed: no such table: reports"].
Proof.
  rewrite (failure_shows_prefixed_error (answering sample_failure) "http://backend"
             60 sample_question (start empty_session) [] sample_failure
             "no such table: reports"); reflexivity.
Defined.

(** A failure reported with an HTTP error status never reaches that
    branch: [raise_for_status] turns it into a request exception. *)
Example failure_behind_http_500 :
  let env := world (Some sample_question) nothing_clicked
               (Ok (server_error_response (VDict sample_failure))) healthy in
  List.filter is_error (map snd (rendered (snd (run_script env empty_session)))) =
  [ Error "API Error: 500 Server Error: Internal Server Error for url: http://backend/ask";
    Error connect_failure ].
Proof. vm_compute. reflexivity. Qed.

(** C3, counterexample: the text of the banner is not the [error] field of
    the body; it carries the prefix "Query failed: ". *)
Lemma failure_banner_is_prefixed :
  let s' := snd (run_script (answering sample_failure) empty_session) in
  sample_failure !! "error" = Some (VStr "no such table: reports") /\
  List.filter is_error (map snd (rendered s')) =
    [Error "Query failed: no such table: reports"] /\
  List.filter is_error (map snd (rendered s')) <> [Error "no such table: reports"].
Proof.
  cbv zeta. split; [|split].
  - vm_compute. reflexivity.
  - vm_compute. reflexivity.
  - vm_compute. discriminate.
Qed.

(** ** Append-only lists, cleared on request *)

Lemma guarded_of_keeps {A} env (m : M A) : keeps grows m -> guarded env m.
Proof. intros Hm s. left. apply Hm. Qed.

Lemma guarded_bind {A B} env (m : M A) (k : A -> M B) :
  guarded env m -> (forall a, guarded env (k a)) -> guarded env (bind m k).
Proof.
  intros Hm Hk s. unfold bind. specialize (Hm s).
  destruct (m s) as [[a|e] s'] eqn:E; cbn [fst snd] in *.
  2: { destruct Hm as [Hg|[[= ->] Hc]]; [by left|by right]. }
  destruct Hm as [Hg|[[=] _]].
  destruct (Hk a s') as [Hg'|Hc]; [left|right; done].
  eapply (frame_trans (R := grows)); eauto.
Qed.

Lemma guarded_within {A} env c (m : M A) : guarded env m -> guarded env (within c m).
Proof.
  intros Hm s. unfold within.
  specialize (Hm (set_cursor (c :: cursor s) s)).
  destruct (m _) as [r s']; cbn in *. exact Hm.
Qed.

Lemma clear_chat_history_button_run env s :
  clear_chat_history_button env s =
  if button_clicked env clear_label then
    (Raise RerunException,
     set_session (set_query_history (Some []))
       (set_session (set_messages (Some []))
          (add_rendered (Button clear_label clear_label) s)))
  else (Ok tt, add_rendered (Button clear_label clear_label) s).
Proof.
  unfold clear_chat_history_button, st_button, bind, emit, ret. cbn.
  by destruct (button_clicked env clear_label).
Qed.

Lemma guarded_clear_chat_history_button env :
  guarded env (clear_chat_history_button env).
Proof.
  intros s. rewrite clear_chat_history_button_run.
  destruct (button_clicked env clear_label) eqn:E; cbn.
  - right. done.
  - left. apply (frame_rendered (R := grows)).
Qed.

Lemma guarded_sidebar env base : guarded env (sidebar env base).
Proof.
  unfold sidebar. apply guarded_within.
  repeat (apply guarded_bind; [apply guarded_of_keeps|intros _]);
    try apply guarded_clear_chat_history_button.
  - apply keeps_emit, _.
  - apply keeps_sidebar_health_check; [apply _|apply grows_get_url].
  - apply keeps_emit, _.
  - apply keeps_emit, _.
  - apply keeps_for_each; [apply _|]. intros query. apply keeps_quick_query_button, _.
  - apply keeps_emit, _.
Qed.

Lemma grows_after_sidebar env base t :
  keeps grows
    (display_chat_history env ;;
     question <- next_question env ;;
     match question with
     | Some q => if truthy (VStr q) then handle_question env base t q else ret tt
     | None => ret tt
     end ;;
     emit Divider ;;
     emit (Markdown (VStr footer) true)).
Proof.
  apply keeps_bind; [apply _|apply keeps_display_chat_history, _|intros _].
  apply keeps_bind; [apply _|apply keeps_next_question, _|intros question].
  apply keeps_bind; [apply _| |intros _].
  - destruct question as [q|]; [|apply keeps_ret, _].
    apply keeps_if; [apply keeps_handle_question; [apply _|apply grows_post]|apply keeps_ret, _].
  - apply keeps_bind; [apply _|apply keeps_emit, _|intros _]. apply keeps_emit, _.
Qed.

Lemma guarded_main_ui env base t : guarded env (main_ui env base t).
Proof.
  unfold main_ui.
  apply guarded_bind; [apply guarded_of_keeps, keeps_emit, _|intros _].
  apply guarded_bind; [apply guarded_of_keeps, keeps_emit, _|intros _].
  apply guarded_bind; [apply guarded_sidebar|intros _].
  apply guarded_of_keeps, grows_after_sidebar.
Qed.

Lemma guarded_script env : guarded env (script env).
Proof.
  unfold script.
  apply guarded_bind; [apply guarded_of_keeps, keeps_emit, _|intros _].
  apply guarded_bind; [apply guarded_of_keeps, keeps_within, keeps_st_text_input; apply _|intros base].
  apply guarded_bind; [apply guarded_of_keeps, keeps_lift, _|intros d].
  apply guarded_bind; [apply guarded_of_keeps, keeps_within, keeps_st_slider; apply _|intros t].
  apply guarded_bind; [apply guarded_of_keeps, keeps_init_session_state, _|intros _].
  apply guarded_main_ui.
Qed.

(** C7.  Over one run of the script, whatever the user did and whatever
    the backend answered, the message list and the query history of the
    session are extended at the end or left as they were; the one exception
    is a run stopped by the Clear Chat History button, which leaves both
    lists empty.  The button, when clicked, does reset both. *)
Theorem lists_append_only_unless_cleared env ss :
  (let s' := snd (run_script env ss) in
   (messages_of ss `prefix_of` messages_of (session s') /\
    history_of ss `prefix_of` history_of (session s')) \/
   (fst (run_script env ss) = Raise RerunException /\
    button_clicked env clear_label = true /\
    messages (session s') = Some [] /\
    query_history (session s') = Some [])) /\
  (forall s,
     button_clicked env clear_label = true ->
     clear_chat_history_button env s =
     (Raise RerunException,
      set_session (set_query_history (Some []))
        (set_session (set_messages (Some []))
           (add_rendered (Button clear_label clear_label) s)))).
Proof.
  split.
  - exact (guarded_script env (start ss)).
  - intros s Hc. by rewrite clear_chat_history_button_run, Hc.
Qed.

Lemma lists_append_only_unless_cleared_witness :
  clear_chat_history_button (world None clear_clicked healthy healthy) (start sample_session) =
  (Raise RerunException,
   set_session (set_query_history (Some []))
     (set_session (set_messages (Some []))
        (add_rendered (Button clear_label clear_label) (start sample_session)))).
Proof.
  apply (proj2 (lists_append_only_unless_cleared
                  (world None clear_clicked healthy healthy) sample_session)).
  reflexivity.
Defined.

(** X19.  Over a whole session, however many runs it has, in which the
    clear button is never clicked, the two lists only grow: what they held
    at any point is still there, in the same order, at every later
    point. *)
Lemma session_lists_grow_without_clear envs ss :
  Forall (fun env => button_clicked env clear_label = false) envs ->
  messages_of ss `prefix_of` messages_of (after_runs envs ss) /\
  history_of ss `prefix_of` history_of (after_runs envs ss).
Proof.
  intros Hno. revert ss. induction Hno as [|env envs Hc _ IH]; intros ss; [done|].
  cbn [after_runs fold_left]. destruct (IH (next_session env ss)) as [IHm IHh].
  destruct (guarded_script env (start ss)) as [[Hm Hh]|(_ & Hclick & _)].
  - split; etrans; eauto.
  - congruence.
Qed.

(** The keys of the quick-query buttons are pairwise distinct. *)
Example quick_query_keys_distinct :
  NoDup (map (fun query => "quick_" +:+ slice_to 20 query) quick_queries).
Proof. apply (bool_decide_unpack _). vm_compute. reflexivity. Qed.

Example clear_empties_both_lists :
  let s' := snd (run_script (world None clear_clicked healthy healthy) sample_session) in
  messages (session s') = Some [] /\ query_history (session s') = Some [].
Proof. split; vm_compute; reflexivity. Qed.

(** ** Timeouts *)

Lemma logged_clear_chat_history_button P env :
  keeps (logged P) (clear_chat_history_button env).
Proof.
  intros s. rewrite clear_chat_history_button_run.
  destruct (button_clicked env clear_label); exists []; by rewrite app_nil_r.
Qed.

Lemma int_slider_configured env d s t s' :
  default_timeout env = Ok d ->
  within Sidebar (st_slider env "API Timeout (seconds)" 10 300 d) s = (Ok t, s') ->
  api_timeout env = Ok t /\ Z.min 10 d <= t <= Z.max 300 d.
Proof.
  intros Hd. unfold api_timeout. rewrite Hd.
  unfold within, st_slider, bind, emit, ret. cbn. intros [= <- _].
  split; [done|].
  destruct (slider_state env (Z.min 10 d) (Z.max 300 d)) as [[p Hp]|]; cbn.
  - apply andb_true_iff in Hp as [?%Z.leb_le ?%Z.leb_le]. lia.
  - lia.
Qed.

Lemma logged_script env : keeps (logged (timeout_as_configured env)) (script env).
Proof.
  unfold script.
  apply keeps_bind; [apply _|apply keeps_emit, _|intros _].
  apply keeps_bind; [apply _|apply keeps_within, keeps_st_text_input; apply _|intros base].
  apply (keeps_bind_result _ (fun d => default_timeout env = Ok d));
    [apply keeps_lift, _|intros s d s' [= H _]; exact H|intros d Hd].
  apply (keeps_bind_result _
           (fun t => api_timeout env = Ok t /\ Z.min 10 d <= t <= Z.max 300 d));
    [apply keeps_within, keeps_st_slider; apply _
    |intros s t s'; apply int_slider_configured, Hd
    |intros t [Ht Hrange]].
  apply keeps_bind; [apply _|apply keeps_init_session_state, _|intros _].
  apply keeps_main_ui; [apply _| | |].
  - by apply logged_get_url.
  - apply logged_clear_chat_history_button.
  - intros q. apply logged_post. exists d. done.
Qed.

(** C10, as amended.  Every POST of a run carries the value the timeout
    slider bound to [API_TIMEOUT].  That value lies within the slider's
    bounds widened by its default [d = int(os.getenv("API_TIMEOUT", "60"))],
    that is between [min(10, d)] and [max(300, d)]; so it lies between 10
    and 300 whenever the default does, as the built-in default 60 does.
    Every health probe carries the fixed timeout 5.  [call_api] passes on
    the timeout it is given, and [check_api_health] does not read it. *)
Theorem timeouts_as_configured env ss :
  Forall (timeout_as_configured env) (requests (snd (run_script env ss))) /\
  (forall d, default_timeout env = Ok d -> 10 <= d <= 300 ->
     Forall timeout_within_declared_bounds (requests (snd (run_script env ss)))) /\
  (forall base t q s,
     requests (snd (call_api env base t q s)) =
     requests s ++ [POST (base +:+ "/ask") (ask_body q) t]) /\
  (forall base s,
     requests (snd (check_api_health env base s)) =
     requests s ++ [GET (base +:+ "/health") 5]).
Proof.
  assert (Hall : Forall (timeout_as_configured env) (requests (snd (run_script env ss)))).
  { destruct (logged_script env (start ss)) as (l & Hl & HP).
    unfold run_script. by rewrite Hl. }
  split; [exact Hall|split; [|split]].
  - intros d Hd Hrange. eapply Forall_impl; [exact Hall|].
    intros [url body t|url t]; cbn; [|done].
    intros (d' & Hd' & _ & Ht). rewrite Hd in Hd'. injection Hd' as <-. lia.
  - intros base t q s. rewrite call_api_run.
    by destruct (request_outcome env base t q) as [v|[]].
  - intros base s. by rewrite check_api_health_run.
Qed.

Lemma timeouts_as_configured_witness :
  Forall timeout_within_declared_bounds
    (requests (snd (run_script (answering sample_success) empty_session))).
Proof.
  apply (proj1 (proj2 (timeouts_as_configured (answering sample_success) empty_session)) 60).
  - reflexivity.
  - lia.
Defined.

(** C10, counterexample: with [API_TIMEOUT=5] in the environment the slider
    takes 5 as its default and widens its bounds to hold it; the submitted
    question is then posted with a timeout of 5 seconds, below 10. *)
Lemma timeout_below_the_declared_minimum :
  api_timeout (world_with_timeout "5" (Ok 5)) = Ok 5 /\
  requests (snd (run_script (world_with_timeout "5" (Ok 5)) empty_session)) =
    [ GET "http://backend/health" 5;
      POST "http://backend/ask" (ask_body sample_question) 5 ] /\
  ~ (10 <= 5 <= 300).
Proof. split; [|split]; [vm_compute; reflexivity|vm_compute; reflexivity|lia]. Qed.

Example timeouts_of_a_sample_run :
  requests (snd (run_script (answering sample_success) empty_session)) =
  [ GET "http://backend/health" 5;
    POST "http://backend/ask" (ask_body sample_question) 60 ].
Proof. vm_compute. reflexivity. Qed.

(** * Further properties of the code *)

(** ** [call_api] beyond the request exceptions *)

(** X1.  An exception outside the [requests] hierarchy raised while the
    request is made or decoded is not caught by [call_api]: it reaches the
    caller unchanged, after the POST was recorded, and no banner is
    shown. *)
Theorem call_api_propagates_other_exceptions env base t q s e :
  request_outcome env base t q = Raise e ->
  (forall msg, e <> Timeout msg) ->
  (forall msg, e <> RequestException msg) ->
  call_api env base t q s =
  (Raise e, add_request (POST (base +:+ "/ask") (ask_body q) t) s).
Proof.
  intros Ho Ht Hr. rewrite call_api_run, Ho.
  destruct e; try reflexivity; [by destruct (Ht msg)|by destruct (Hr msg)].
Qed.

Lemma call_api_propagates_other_exceptions_witness :
  fst (call_api (world None nothing_clicked (Raise ValueError) healthy)
         "http://backend" 60 sample_question (start empty_session)) =
  Raise ValueError.
Proof.
  rewrite (call_api_propagates_other_exceptions
             (world None nothing_clicked (Raise ValueError) healthy)
             "http://backend" 60 sample_question (start empty_session) ValueError);
    done.
Defined.

(** X2.  A response with a 4xx or 5xx status never has its body decoded:
    [call_api] shows the "API Error" banner built from the status line and
    returns [None], whatever the body says. *)
Theorem call_api_http_error_status env base t q s response :
  requests_post env (base +:+ "/ask") (ask_body q) t = Ok response ->
  400 <= status_code response < 600 ->
  exists kind,
    (kind = " Client Error: " \/ kind = " Server Error: ") /\
    call_api env base t q s =
    (Ok VNone,
     add_rendered
       (Error ("API Error: " +:+ pretty (status_code response) +:+ kind
               +:+ reason response +:+ " for url: " +:+ url response))
       (add_request (POST (base +:+ "/ask") (ask_body q) t) s)).
Proof.
  intros Hp Hs. rewrite call_api_run. unfold request_outcome, raise_for_status.
  rewrite Hp.
  destruct (decide (status_code response < 500)) as [Hlt|Hge].
  - exists " Client Error: ". split; [by left|].
    replace ((400 <=? status_code response) && (status_code response <? 500)) with true
      by (symmetry; apply andb_true_iff; split; [apply Z.leb_le|apply Z.ltb_lt]; lia).
    reflexivity.
  - exists " Server Error: ". split; [by right|].
    replace ((400 <=? status_code response) && (status_code response <? 500)) with false
      by (symmetry; apply andb_false_iff; right; apply Z.ltb_ge; lia).
    replace ((500 <=? status_code response) && (status_code response <? 600)) with true
      by (symmetry; apply andb_true_iff; split; [apply Z.leb_le|apply Z.ltb_lt]; lia).
    reflexivity.
Qed.

Lemma call_api_http_error_status_witness :
  fst (call_api
         (world None nothing_clicked
            (Ok (server_error_response (VDict sample_success))) healthy)
         "http://backend" 60 sample_question (start empty_session)) =
  Ok VNone.
Proof.
  destruct (call_api_http_error_status
              (world None nothing_clicked
                 (Ok (server_error_response (VDict sample_success))) healthy)
              "http://backend" 60 sample_question (start empty_session)
              (server_error_response (VDict sample_success)))
    as (kind & _ & ->); [reflexivity|cbn; lia|reflexivity].
Defined.

(** X3.  Whatever happens, [call_api] leaves the session state alone and
    renders at most one element, which is an error banner. *)
Theorem call_api_touches_only_the_page env base t q s :
  let s' := snd (call_api env base t q s) in
  session s' = session s /\
  cursor s' = cursor s /\
  (rendered s' = rendered s \/
   exists text, rendered s' = rendered s ++ [(cursor s, Error text)]).
Proof.
  rewrite call_api_run. cbv zeta.
  destruct (request_outcome env base t q) as [v|[]]; cbn; eauto.
Qed.

(** ** The question handler in its other outcomes *)

Lemma fold_add_rendered (ws : list data_widget) s :
  fold_left (fun s w => add_rendered (Data w) s) ws s =
  {| session := session s;
     rendered := rendered s ++ map (fun w => (cursor s, Data w)) ws;
     requests := requests s; cursor := cursor s |}.
Proof.
  revert s. induction ws as [|w ws IH]; intros [ss rd rq cur]; cbn.
  - by rewrite app_nil_r.
  - rewrite IH. cbn. by rewrite <- app_assoc.
Qed.

(** X4.  When the request raises a request exception other than a timeout
    (a refused connection, an HTTP error status), the handler has stored the
    user's question and stores nothing else; it shows the question, the
    "API Error" banner with the text of the exception and the
    connection-failure banner, and reruns. *)
Theorem request_error_keeps_only_the_question env base t q s msgs msg :
  messages (session s) = Some msgs ->
  request_outcome env base t q = Raise (RequestException msg) ->
  handle_question env base t q s =
  (Raise RerunException,
   {| session := set_messages (Some (msgs ++ [user_message q])) (session s);
      rendered :=
        rendered s ++
        [ (ChatMessage (VStr "user") :: cursor s, Markdown (VStr q) false);
          (Spinner spinner_text :: ChatMessage (VStr "assistant") :: cursor s,
           Error ("API Error: " +:+ msg));
          (ChatMessage (VStr "assistant") :: cursor s, Error connect_failure) ];
      requests := requests s ++ [POST (base +:+ "/ask") (ask_body q) t];
      cursor := cursor s |}).
Proof.
  intros Hm Ho. destruct s as [[ms qh cq] rd rq cur]. cbn in Hm. subst ms.
  enter. rewrite call_api_run, Ho. step. cbn [truthy]. cbv iota.
  by rewrite <- !app_assoc.
Qed.

Lemma request_error_keeps_only_the_question_witness :
  List.filter is_error
    (map snd
       (rendered
          (snd (handle_question
                  (world (Some sample_question) nothing_clicked
                     (Raise (RequestException "connection refused")) healthy)
                  "http://backend" 60 sample_question (start empty_session))))) =
  [Error "API Error: connection refused"; Error connect_failure].
Proof.
  rewrite (request_error_keeps_only_the_question
             (world (Some sample_question) nothing_clicked
                (Raise (RequestException "connection refused")) healthy)
             "http://backend" 60 sample_question (start empty_session) []
             "connection refused"); reflexivity.
Defined.

(** X5.  A request that completes with a body Python counts as false (the
    empty object, [null], [false], zero, an empty string or list) is
    reported as a failure to connect: the only banner is the
    connection-failure one, and only the user's question is stored. *)
Theorem falsy_body_reported_as_connection_failure env base t q s msgs body :
  messages (session s) = Some msgs ->
  request_outcome env base t q = Ok body ->
  truthy body = false ->
  handle_question env base t q s =
  (Raise RerunException,
   {| session := set_messages (Some (msgs ++ [user_message q])) (session s);
      rendered :=
        rendered s ++
        [ (ChatMessage (VStr "user") :: cursor s, Markdown (VStr q) false);
          (ChatMessage (VStr "assistant") :: cursor s, Error connect_failure) ];
      requests := requests s ++ [POST (base +:+ "/ask") (ask_body q) t];
      cursor := cursor s |}).
Proof.
  intros Hm Ho Hf. destruct s as [[ms qh cq] rd rq cur]. cbn in Hm. subst ms.
  enter. rewrite call_api_run, Ho. step. rewrite Hf.
  by rewrite <- !app_assoc.
Qed.

Lemma falsy_body_reported_as_connection_failure_witness :
  List.filter is_error
    (map snd
       (rendered
          (snd (handle_question (answering ∅) "http://backend" 60 sample_question
                  (start empty_session))))) =
  [Error connect_failure].
Proof.
  rewrite (falsy_body_reported_as_connection_failure (answering ∅) "http://backend"
             60 sample_question (start empty_session) [] (VDict ∅)); reflexivity.
Defined.

(** X6.  A request that completes with a body that is true for Python but
    is not an object (a non-empty list or string, a number, [true]) makes
    the handler fail with [AttributeError] on [result.get]: the question
    is stored and shown, nothing else is, and the rerun is not reached. *)
Theorem non_object_body_raises_attribute_error env base t q s msgs body :
  messages (session s) = Some msgs ->
  request_outcome env base t q = Ok body ->
  truthy body = true ->
  (forall d, body <> VDict d) ->
  handle_question env base t q s =
  (Raise AttributeError,
   {| session := set_messages (Some (msgs ++ [user_message q])) (session s);
      rendered :=
        rendered s ++
        [ (ChatMessage (VStr "user") :: cursor s, Markdown (VStr q) false) ];
      requests := requests s ++ [POST (base +:+ "/ask") (ask_body q) t];
      cursor := cursor s |}).
Proof.
  intros Hm Ho Ht Hd. destruct s as [[ms qh cq] rd rq cur]. cbn in Hm. subst ms.
  enter. rewrite call_api_run, Ho. step. rewrite Ht.
  destruct body; try reflexivity. by destruct (Hd d).
Qed.

Lemma non_object_body_raises_attribute_error_witness :
  fst (handle_question
         (world (Some sample_question) nothing_clicked
            (Ok (ok_response (VList [VInt 1]))) healthy)
         "http://backend" 60 sample_question (start empty_session)) =
  Raise AttributeError.
Proof.
  rewrite (non_object_body_raises_attribute_error
             (world (Some sample_question) nothing_clicked
                (Ok (ok_response (VList [VInt 1]))) healthy)
             "http://backend" 60 sample_question (start empty_session) []
             (VList [VInt 1])); done.
Defined.

(** The state in which a successful answer has been stored and shown, up to
    and including the SQL expander. *)
Lemma success_prefix_run env base t q s msgs qh d :
  messages (session s) = Some msgs ->
  query_history (session s) = Some qh ->
  request_outcome env base t q = Ok (VDict d) ->
  truthy (dict_get d "success" VNone) = true ->
  forall outcome,
    len_gt_0 (dict_get d "data" (VList [])) = outcome ->
    handle_question env base t q s =
    let shown :=
      {| session :=
           set_query_history (Some (qh ++ [history_entry env q d]))
             (set_messages (Some (msgs ++ [user_message q; message_data d])) (session s));
         rendered :=
           rendered s ++
           [ (ChatMessage (VStr "user") :: cursor s, Markdown (VStr q) false);
             (ChatMessage (VStr "assistant") :: cursor s,
              Markdown (dict_get d "answer" (VStr "Query executed successfully.")) false);
             (Expander sql_expander :: ChatMessage (VStr "assistant") :: cursor s,
              Code (dict_get d "sql_query" (VStr "")) "sql") ];
         requests := requests s ++ [POST (base +:+ "/ask") (ask_body q) t];
         cursor := cursor s |} in
    match outcome with
    | Raise e => (Raise e, shown)
    | Ok false =>
        (Raise RerunException,
         rendered_in [ChatMessage (VStr "assistant")] (Info "No data returned from query.") shown)
    | Ok true =>
        let table := result_table env (dict_get d "data" (VList []))
                       (dict_get d "execution_time_ms" (VInt 0)) in
        (match snd table with Ok _ => Raise RerunException | Raise e => Raise e end,
         fold_left
           (fun s w => rendered_in [ChatMessage (VStr "assistant")] (Data w) s)
           (fst table) shown)
    end.
Proof.
  intros Hm Hq Ho Hs outcome Hlen.
  pose proof (truthy_success_nonempty d Hs) as Ht.
  destruct s as [[ms qh' cq] rd rq cur]. cbn in Hm, Hq. subst ms qh'.
  step. rewrite call_api_run, Ho. step. rewrite Ht. step. rewrite Hs. step.
  rewrite Hlen. destruct outcome as [[|]|e].
  - rewrite show_panel_run.
    destruct (result_table env _ _) as [ws r]. cbn [fst snd].
    rewrite fold_add_rendered. cbn.
    assert (Hfold : forall ws s1,
      fold_left (fun s w => rendered_in [ChatMessage (VStr "assistant")] (Data w) s) ws s1 =
      {| session := session s1;
         rendered := rendered s1 ++
                     map (fun w => ([ChatMessage (VStr "assistant")] ++ cursor s1, Data w)) ws;
         requests := requests s1; cursor := cursor s1 |}).
    { clear. induction ws as [|w ws IH]; intros [ss rd rq cur]; cbn.
      - by rewrite app_nil_r.
      - rewrite IH. cbn. by rewrite <- app_assoc. }
    rewrite Hfold. cbn. destruct r; cbn; by rewrite <- !app_assoc.
  - unfold rendered_in. cbn. by rewrite <- !app_assoc.
  - cbn. by rewrite <- !app_assoc.
Qed.

(** X7.  When a successful response carries [data] that has no length
    ([null], a number, a boolean), the handler fails with [TypeError] on
    [len(data)], but only after the question, the answer and the history
    entry were stored and the answer and its SQL were shown: the session
    keeps them although the run broke off before its rerun. *)
Theorem unsized_data_fails_after_storing env base t q s msgs qh d e :
  messages (session s) = Some msgs ->
  query_history (session s) = Some qh ->
  request_outcome env base t q = Ok (VDict d) ->
  truthy (dict_get d "success" VNone) = true ->
  len_gt_0 (dict_get d "data" (VList [])) = Raise e ->
  e = TypeError /\
  handle_question env base t q s =
  (Raise TypeError,
   {| session :=
        set_query_history (Some (qh ++ [history_entry env q d]))
          (set_messages (Some (msgs ++ [user_message q; message_data d])) (session s));
      rendered :=
        rendered s ++
        [ (ChatMessage (VStr "user") :: cursor s, Markdown (VStr q) false);
          (ChatMessage (VStr "assistant") :: cursor s,
           Markdown (dict_get d "answer" (VStr "Query executed successfully.")) false);
          (Expander sql_expander :: ChatMessage (VStr "assistant") :: cursor s,
           Code (dict_get d "sql_query" (VStr "")) "sql") ];
      requests := requests s ++ [POST (base +:+ "/ask") (ask_body q) t];
      cursor := cursor s |}).
Proof.
  intros Hm Hq Ho Hs Hlen.
  assert (e = TypeError) as ->.
  { destruct (dict_get d "data" (VList [])); cbn in Hlen; congruence. }
  split; [done|].
  by rewrite (success_prefix_run env base t q s msgs qh d Hm Hq Ho Hs _ Hlen).
Qed.

(** X8.  When a successful response carries no rows ([data] absent or
    empty), the handler shows the answer, its SQL and the note "No data
    returned from query.", in that order, and reruns. *)
Theorem empty_data_shows_note env base t q s msgs qh d :
  messages (session s) = Some msgs ->
  query_history (session s) = Some qh ->
  request_outcome env base t q = Ok (VDict d) ->
  truthy (dict_get d "success" VNone) = true ->
  len_gt_0 (dict_get d "data" (VList [])) = Ok false ->
  handle_question env base t q s =
  (Raise RerunException,
   {| session :=
        set_query_history (Some (qh ++ [history_entry env q d]))
          (set_messages (Some (msgs ++ [user_message q; message_data d])) (session s));
      rendered :=
        rendered s ++
        [ (ChatMessage (VStr "user") :: cursor s, Markdown (VStr q) false);
          (ChatMessage (VStr "assistant") :: cursor s,
           Markdown (dict_get d "answer" (VStr "Query executed successfully.")) false);
          (Expander sql_expander :: ChatMessage (VStr "assistant") :: cursor s,
           Code (dict_get d "sql_query" (VStr "")) "sql");
          (ChatMessage (VStr "assistant") :: cursor s,
           Info "No data returned from query.") ];
      requests := requests s ++ [POST (base +:+ "/ask") (ask_body q) t];
      cursor := cursor s |}).
Proof.
  intros Hm Hq Ho Hs Hlen.
  rewrite (success_prefix_run env base t q s msgs qh d Hm Hq Ho Hs _ Hlen).
  unfold rendered_in. cbn. by rewrite <- !app_assoc.
Qed.

Lemma unsized_data_fails_after_storing_witness :
  fst (handle_question (answering sample_null_data) "http://backend" 60
         sample_question (start empty_session)) =
  Raise TypeError.
Proof.
  destruct (unsized_data_fails_after_storing (answering sample_null_data)
              "http://backend" 60 sample_question (start empty_session) [] []
              sample_null_data TypeError) as [_ ->]; reflexivity.
Defined.

Lemma empty_data_shows_note_witness :
  fst (handle_question (answering sample_success) "http://backend" 60
         sample_question (start empty_session)) =
  Raise RerunException.
Proof.
  rewrite (empty_data_shows_note (answering sample_success) "http://backend" 60
             sample_question (start empty_session) [] [] sample_success);
    reflexivity.
Defined.

(** X20.  When a successful response carries rows, the table block is
    rendered inside the assistant message after the answer and its SQL.
    The block is not guarded: if it raises, its exception ends the run
    instead of the rerun, yet the question, the answer and the history
    entry are already stored. *)
Theorem table_failure_keeps_the_answer env base t q s msgs qh d e :
  messages (session s) = Some msgs ->
  query_history (session s) = Some qh ->
  request_outcome env base t q = Ok (VDict d) ->
  truthy (dict_get d "success" VNone) = true ->
  len_gt_0 (dict_get d "data" (VList [])) = Ok true ->
  snd (result_table env (dict_get d "data" (VList []))
         (dict_get d "execution_time_ms" (VInt 0))) = Raise e ->
  let s' := snd (handle_question env base t q s) in
  fst (handle_question env base t q s) = Raise e /\
  messages (session s') = Some (msgs ++ [user_message q; message_data d]) /\
  query_history (session s') = Some (qh ++ [history_entry env q d]) /\
  rendered s' =
    rendered s ++
    [ (ChatMessage (VStr "user") :: cursor s, Markdown (VStr q) false);
      (ChatMessage (VStr "assistant") :: cursor s,
       Markdown (dict_get d "answer" (VStr "Query executed successfully.")) false);
      (Expander sql_expander :: ChatMessage (VStr "assistant") :: cursor s,
       Code (dict_get d "sql_query" (VStr "")) "sql") ] ++
    map (fun w => (ChatMessage (VStr "assistant") :: cursor s, Data w))
      (fst (result_table env (dict_get d "data" (VList []))
              (dict_get d "execution_time_ms" (VInt 0)))).
Proof.
  intros Hm Hq Ho Hs Hlen Htable s'. subst s'.
  rewrite (success_prefix_run env base t q s msgs qh d Hm Hq Ho Hs _ Hlen).
  cbv zeta. rewrite Htable.
  assert (Hfold : forall ws s1,
    fold_left (fun s w => rendered_in [ChatMessage (VStr "assistant")] (Data w) s) ws s1 =
    {| session := session s1;
       rendered := rendered s1 ++
                   map (fun w => ([ChatMessage (VStr "assistant")] ++ cursor s1, Data w)) ws;
       requests := requests s1; cursor := cursor s1 |}).
  { clear. induction ws as [|w ws IH]; intros [ss rd rq cur]; cbn.
    - by rewrite app_nil_r.
    - rewrite IH. cbn. by rewrite <- app_assoc. }
  rewrite Hfold. cbn. by rewrite <- !app_assoc.
Qed.

Lemma table_failure_keeps_the_answer_witness :
  fst (handle_question world_with_failing_table "http://backend" 60 sample_question
         (start empty_session)) =
  Raise ValueError.
Proof.
  apply (table_failure_keeps_the_answer world_with_failing_table "http://backend" 60
           sample_question (start empty_session) [] [] sample_rows ValueError);
    reflexivity.
Defined.

(** X9.  Whatever the backend does, the handler stores the user's question
    first and at most one assistant entry after it, and it stores an
    assistant entry only for a decoded object whose [success] is true; the
    query history gains an entry only together with such an answer. *)
Theorem handler_stores_question_then_at_most_one_answer env base t q s msgs qh :
  messages (session s) = Some msgs ->
  query_history (session s) = Some qh ->
  let s' := snd (handle_question env base t q s) in
  (messages (session s') = Some (msgs ++ [user_message q]) /\
   query_history (session s') = Some qh) \/
  (exists d,
     request_outcome env base t q = Ok (VDict d) /\
     truthy (dict_get d "success" VNone) = true /\
     messages (session s') = Some (msgs ++ [user_message q; message_data d]) /\
     query_history (session s') = Some (qh ++ [history_entry env q d])).
Proof.
  intros Hm Hq s'. subst s'.
  destruct (request_outcome env base t q) as [body|e] eqn:Ho.
  - destruct (truthy body) eqn:Ht.
    + destruct body as [| | | | | |d].
      7: { destruct (truthy (dict_get d "success" VNone)) eqn:Hs.
           - right. exists d.
             destruct (success_run env base t q s msgs qh d Hm Hq Ho Hs) as (r & tail & ->).
             done.
           - left. by rewrite (failure_run env base t q s msgs d Hm Ho Ht Hs). }
      all: left; destruct s as [[ms qh' cq] rd rq cur]; cbn in Hm, Hq; subst ms qh';
        enter; rewrite call_api_run, Ho; step; rewrite Ht; done.
    + left. destruct s as [[ms qh' cq] rd rq cur]. cbn in Hm, Hq. subst ms qh'.
      enter. rewrite call_api_run, Ho. step. rewrite Ht. done.
  - left. destruct s as [[ms qh' cq] rd rq cur]. cbn in Hm, Hq. subst ms qh'.
    enter. rewrite call_api_run, Ho.
    destruct e; step; cbn [truthy]; done.
Qed.

Lemma handler_stores_question_then_at_most_one_answer_witness :
  messages
    (session
       (snd (handle_question (answering sample_failure) "http://backend" 60
               sample_question (start empty_session)))) =
  Some [user_message sample_question].
Proof.
  destruct (handler_stores_question_then_at_most_one_answer
              (answering sample_failure) "http://backend" 60 sample_question
              (start empty_session) [] [] eq_refl eq_refl)
    as [[Hm _]|(d & Ho & Hs & _)].
  - exact Hm.
  - exfalso. injection Ho as <-. discriminate Hs.
Defined.

(** ** The settings at the top of the page *)

(** How a run starts: either the timeout setting cannot be read as an
    integer and the run stops there, or the page is rendered with the two
    settings on an initialised session. *)
Lemma run_script_prelude env ss :
  run_script env ss =
  match default_timeout env with
  | Ok d =>
      main_ui env (api_base_url env)
        (match slider_state env (Z.min 10 d) (Z.max 300 d) with
         | Some p => position p
         | None => d
         end)
        {| session := initialised ss;
           rendered :=
             settings_only env ++ [([Sidebar], Slider "API Timeout (seconds)" 10 300 d)];
           requests := []; cursor := [] |}
  | Raise e =>
      (Raise e,
       {| session := ss; rendered := settings_only env; requests := []; cursor := [] |})
  end.
Proof.
  unfold run_script, script, default_timeout, api_base_url, st_text_input, st_slider,
    init_session_state, start, settings_only, initialised, messages_of, history_of.
  cbv beta iota zeta delta
    [bind within ret lift emit raise modify_session
     session cursor rendered requests set_cursor add_rendered set_session fst snd].
  destruct (builtin_int env _) as [d|e]; [|reflexivity].
  destruct ss as [[ms|] [qh|] cq]; reflexivity.
Qed.

Lemma run_script_from_settings env ss :
  run_script env ss =
  match api_timeout env with
  | Ok t =>
      main_ui env (api_base_url env) t
        {| session := initialised ss;
           rendered :=
             settings_only env ++
             [([Sidebar],
               Slider "API Timeout (seconds)" 10 300
                 (match default_timeout env with Ok d => d | Raise _ => 0 end))];
           requests := []; cursor := [] |}
  | Raise e =>
      (Raise e,
       {| session := ss; rendered := settings_only env; requests := []; cursor := [] |})
  end.
Proof.
  rewrite run_script_prelude. unfold api_timeout.
  by destruct (default_timeout env).
Qed.



(** ** The requests of a whole run *)











(** ** Replaying stored turns *)

(** X12.  A stored user turn is replayed exactly as it was shown when it
    was submitted: one markdown element with the question, in a "user" chat
    message, with no SQL expander and no table. *)
Theorem user_turn_replayed_as_shown env q s :
  display_message env (user_message q) s =
  (Ok tt, rendered_in [ChatMessage (VStr "user")] (Markdown (VStr q) false) s).
Proof.
  unfold display_message, item, dict_get, user_message.
  repeat (rewrite ?lookup_insert_eq, ?lookup_insert_ne, ?lookup_singleton_eq,
            ?lookup_singleton_ne, ?lookup_empty by done).
  destruct s as [ss rd rq cur]. reflexivity.
Qed.

Lemma display_user_message_ok env q s : fst (display_message env (user_message q) s) = Ok tt.
Proof.
  unfold display_message, item, dict_get, user_message.
  repeat (rewrite ?lookup_insert_eq, ?lookup_insert_ne, ?lookup_singleton_eq,
            ?lookup_singleton_ne, ?lookup_empty by done).
  reflexivity.
Qed.

Lemma message_data_sql_query d :
  message_data d !! "sql_query" = Some (dict_get d "sql_query" (VStr "")).
Proof. unfold message_data. by simplify_map_eq. Qed.

Lemma message_data_data d :
  message_data d !! "data" = Some (dict_get d "data" (VList [])).
Proof. unfold message_data. by simplify_map_eq. Qed.

Lemma get_stored_sql_query d :
  dict_get (message_data d) "sql_query" VNone = dict_get d "sql_query" (VStr "").
Proof. unfold dict_get at 1. by rewrite message_data_sql_query. Qed.

Lemma get_stored_data d :
  dict_get (message_data d) "data" VNone = dict_get d "data" (VList []).
Proof. unfold dict_get at 1. by rewrite message_data_data. Qed.

(** X13.  A stored answer without rows is replayed as its stored content
    (the empty string when the response had no [answer]), followed by the
    SQL expander only if the stored SQL is not empty.  Unlike the live
    rendering, the replay shows no expander for an empty SQL and no "No
    data returned" note. *)
Theorem answer_without_rows_replayed env d s :
  truthy (dict_get d "data" (VList [])) = false ->
  display_message env (message_data d) s =
  (Ok tt,
   let shown :=
     rendered_in [ChatMessage (VStr "assistant")]
       (Markdown (dict_get d "answer" (VStr "")) false) s in
   if truthy (dict_get d "sql_query" (VStr "")) then
     rendered_in [Expander sql_expander; ChatMessage (VStr "assistant")]
       (Code (dict_get d "sql_query" (VStr "")) "sql") shown
   else shown).
Proof.
  intros Hdata. unfold display_message, item.
  rewrite message_data_role, message_data_content, message_data_sql_query.
  rewrite get_stored_sql_query, get_stored_data, Hdata.
  destruct s as [ss rd rq cur].
  destruct (truthy (dict_get d "sql_query" (VStr ""))); reflexivity.
Qed.

Lemma answer_without_rows_replayed_witness :
  map snd (rendered (snd (display_message (answering sample_no_answer)
                            (message_data sample_no_answer) (start empty_session)))) =
  [Markdown (VStr "") false; Code (VStr "SELECT 1") "sql"].
Proof.
  rewrite (answer_without_rows_replayed (answering sample_no_answer) sample_no_answer
             (start empty_session)); reflexivity.
Defined.

Lemma for_each_first_failure {A} (body : A -> M unit) l1 x l2 e s :
  Forall (fun y => forall s, fst (body y s) = Ok tt) l1 ->
  (forall s, fst (body x s) = Raise e) ->
  fst (for_each (l1 ++ x :: l2) body s) = Raise e.
Proof.
  intros Hok Hbad. revert s. induction Hok as [|y l1 Hy _ IH]; intros s; cbn [app for_each].
  - unfold bind. specialize (Hbad s). by destruct (body x s) as [[[]|e'] s']; cbn in *; subst.
  - unfold bind. specialize (Hy s). destruct (body y s) as [[[]|e'] s']; cbn in *; [apply IH|done].
Qed.

(** X14.  A stored answer whose [data] is true for Python but has no
    length (a non-zero number, [true]) breaks every later rendering of the
    history: the replay raises [TypeError] at that turn, so the turns after
    it are not shown and the run never reaches the chat input. *)
Theorem unsized_rows_break_the_history env d earlier later s :
  messages (session s) = Some (earlier ++ message_data d :: later) ->
  Forall (fun m => forall s, fst (display_message env m s) = Ok tt) earlier ->
  truthy (dict_get d "data" (VList [])) = true ->
  len_gt_0 (dict_get d "data" (VList [])) = Raise TypeError ->
  fst (display_chat_history env s) = Raise TypeError.
Proof.
  intros Hm Hearlier Htruthy Hlen.
  unfold display_chat_history, within, bind, get_session.
  cbn [fst snd session set_cursor]. rewrite Hm.
  match goal with
  | |- context [for_each _ _ ?s0] =>
      pose proof (for_each_first_failure (display_message env) earlier
                    (message_data d) later TypeError s0 Hearlier) as H
  end.
  destruct (for_each _ _ _) as [r s']. cbn in *. apply H.
  intros s0. unfold display_message, item.
  rewrite message_data_role, message_data_content, message_data_sql_query,
    message_data_data.
  rewrite get_stored_sql_query, get_stored_data, Htruthy.
  unfold within, bind, lift, st_markdown, emit, st_code. cbn. rewrite Hlen.
  by destruct (truthy (dict_get d "sql_query" (VStr ""))).
Qed.

Lemma unsized_rows_break_the_history_witness :
  fst (display_chat_history (answering sample_unsized_data)
         (start {| messages := Some ([user_message sample_question] ++
                                     message_data sample_unsized_data :: []);
                   query_history := Some [];
                   current_question := None |})) =
  Raise TypeError.
Proof.
  apply (unsized_rows_break_the_history (answering sample_unsized_data)
           sample_unsized_data [user_message sample_question] []).
  - reflexivity.
  - apply Forall_cons_2; [intros s; apply display_user_message_ok|apply Forall_nil_2].
  - reflexivity.
  - reflexivity.
Defined.

(** ** Quick queries *)

Lemma fold_buttons (l : list string) s :
  fold_left (fun s q => add_rendered (Button q (quick_key q)) s) l s =
  {| session := session s;
     rendered := rendered s ++ map (fun q => (cursor s, Button q (quick_key q))) l;
     requests := requests s; cursor := cursor s |}.
Proof.
  revert s. induction l as [|q l IH]; intros [ss rd rq cur]; cbn.
  - by rewrite app_nil_r.
  - rewrite IH. cbn. by rewrite <- app_assoc.
Qed.

Lemma quick_query_buttons_none env l s :
  Forall (fun q => button_clicked env (quick_key q) = false) l ->
  for_each l (quick_query_button env) s =
  (Ok tt, fold_left (fun s q => add_rendered (Button q (quick_key q)) s) l s).
Proof.
  intros Hl. revert s. induction Hl as [|q l Hq _ IH]; intros s; [done|].
  cbn [for_each fold_left]. unfold bind at 1, quick_query_button at 1.
  unfold st_button, bind, emit, ret. cbn. fold (quick_key q). rewrite Hq. apply IH.
Qed.

Lemma quick_query_buttons_click env before query after s :
  Forall (fun q => button_clicked env (quick_key q) = false) before ->
  button_clicked env (quick_key query) = true ->
  for_each (before ++ query :: after) (quick_query_button env) s =
  (Raise RerunException,
   set_session (set_current_question (Some query))
     (fold_left (fun s q => add_rendered (Button q (quick_key q)) s) (before ++ [query]) s)).
Proof.
  intros Hl Hc. revert s. induction Hl as [|q l Hq _ IH]; intros s.
  - cbn [app for_each fold_left]. unfold bind at 1, quick_query_button at 1.
    unfold st_button, bind, emit, ret, modify_session, rerun, raise. cbn.
    fold (quick_key query). by rewrite Hc.
  - cbn [app for_each fold_left]. unfold bind at 1, quick_query_button at 1.
    unfold st_button, bind, emit, ret. cbn. fold (quick_key q). rewrite Hq. apply IH.
Qed.

(** X15.  Clicking a quick-query button does not ask the backend in that
    run: after the health probe the run stores the query as the pending
    question and reruns at once.  The two lists are as they were, and the
    clear button, which comes later in the sidebar, is not consulted. *)
Theorem quick_query_click_is_stored_not_asked env ss t before query after :
  api_timeout env = Ok t ->
  quick_queries = before ++ query :: after ->
  Forall (fun q => button_clicked env (quick_key q) = false) before ->
  button_clicked env (quick_key query) = true ->
  fst (run_script env ss) = Raise RerunException /\
  session (snd (run_script env ss)) = set_current_question (Some query) (initialised ss) /\
  requests (snd (run_script env ss)) = [GET (api_base_url env +:+ "/health") 5].
Proof.
  intros Ht Hq Hbefore Hclick.
  rewrite run_script_from_settings, Ht.
  unfold main_ui, sidebar, sidebar_health_check, st_markdown, st_success, st_error, st_info.
  rewrite Hq.
  cbv beta iota zeta delta [bind within emit fst snd].
  rewrite check_api_health_run.
  destruct (match requests_get env _ _ with Ok _ => _ | Raise _ => _ end);
    cbv beta iota zeta delta [bind within emit fst snd];
    rewrite (quick_query_buttons_click env before query after _ Hbefore Hclick);
    rewrite fold_buttons; done.
Qed.

Lemma quick_query_click_is_stored_not_asked_witness :
  session
    (snd (run_script (world None (quick_clicked sample_question) healthy healthy)
            empty_session)) =
  pending_session sample_question.
Proof.
  apply (quick_query_click_is_stored_not_asked
           (world None (quick_clicked sample_question) healthy healthy) empty_session 60
           ["Show all abnormal tests for Lab 12 yesterday"] sample_question
           [ "List abnormal parameters for male patients last week";
             "Compare abnormal test count by lab center";
             "Show test results trend over the last 30 days" ]).
  - reflexivity.
  - reflexivity.
  - apply Forall_cons_2; [reflexivity|apply Forall_nil_2].
  - reflexivity.
Defined.

(** ** The pending question *)

Lemma show_result_current_question env q v s :
  current_question (session (snd (show_result env q v s))) = current_question (session s).
Proof.
  destruct s as [[ms qh cq] rd rq cur].
  unfold show_result. destruct (truthy v); [|reflexivity].
  destruct v as [| | | | | |d]; try reflexivity.
  step. destruct (truthy (dict_get d "success" VNone)); [|reflexivity].
  destruct ms as [ms|]; [|reflexivity]. destruct qh as [qh|]; [|reflexivity].
  destruct (len_gt_0 (dict_get d "data" (VList []))) as [[|]|e]; try reflexivity.
  rewrite show_panel_run, fold_add_rendered. reflexivity.
Qed.

Lemma handle_question_requests env base t q s msgs :
  messages (session s) = Some msgs ->
  requests (snd (handle_question env base t q s)) =
  requests s ++ [POST (base +:+ "/ask") (ask_body q) t] /\
  current_question (session (snd (handle_question env base t q s))) =
  current_question (session s).
Proof.
  intros Hm. destruct s as [[ms qh cq] rd rq cur]. cbn in Hm. subst ms.
  assert (Hshow : forall v s, requests (snd (show_result env q v s)) = requests s).
  { intros v s. apply logged_nothing. apply keeps_show_result. apply _. }
  pose proof (show_result_current_question env q) as Hcq.
  enter. rewrite call_api_run.
  destruct (request_outcome env base t q) as [v|e]; [|destruct e]; enter;
    try (split; reflexivity);
    match goal with
    | |- context [show_result env q ?v ?S] =>
        specialize (Hshow v S); specialize (Hcq v S);
        destruct (show_result env q v S) as [[] [[] ? ? ?]]
    end; cbn in *; by subst.
Qed.

(** Rendering a stored turn only adds to the page, and whether it succeeds
    depends on the turn alone. *)
Lemma display_message_frame env m :
  exists r, forall s, exists rd,
    display_message env m s =
    (r, {| session := session s; rendered := rd; requests := requests s; cursor := cursor s |}).
Proof.
  destruct (m !! "role") as [role|] eqn:Hrole,
           (m !! "content") as [content|] eqn:Hcontent,
           (truthy (dict_get m "sql_query" VNone)) eqn:Hsql,
           (m !! "sql_query") as [sql|] eqn:Hsql',
           (truthy (dict_get m "data" VNone)) eqn:Hdata,
           (m !! "data") as [data|] eqn:Hdata'.
  all: try (destruct (len_gt_0 data) as [[|]|e] eqn:Hlen).
  all: eexists; intros [ss rd rq cur]; eexists;
    unfold display_message, item;
    cbv beta iota zeta delta
      [bind within ret lift emit st_markdown st_code
       session cursor rendered requests set_cursor add_rendered fst snd];
    rewrite ?Hrole; cbv beta iota;
    rewrite ?Hcontent; cbv beta iota;
    rewrite ?Hsql; cbv beta iota;
    rewrite ?Hsql'; cbv beta iota;
    rewrite ?Hdata; cbv beta iota;
    rewrite ?Hdata'; cbv beta iota;
    rewrite ?Hlen; cbv beta iota;
    rewrite ?show_panel_run, ?fold_add_rendered;
    cbv beta iota zeta delta [session cursor rendered requests fst snd];
    reflexivity.
Qed.

Lemma display_messages_frame env l :
  exists r, forall s, exists rd,
    for_each l (display_message env) s =
    (r, {| session := session s; rendered := rd; requests := requests s; cursor := cursor s |}).
Proof.
  induction l as [|m l (r & IH)].
  - exists (Ok tt). intros [ss rd rq cur]. eexists. reflexivity.
  - destruct (display_message_frame env m) as (rm & Hm).
    destruct rm as [[]|e].
    + exists r. intros s. cbn [for_each]. unfold bind.
      destruct (Hm s) as (rd1 & ->). destruct (IH (RunState (session s) rd1 (requests s) (cursor s)))
        as (rd2 & ->). eexists. reflexivity.
    + exists (Raise e). intros s. cbn [for_each]. unfold bind.
      destruct (Hm s) as (rd1 & ->). eexists. reflexivity.
Qed.

Lemma display_chat_history_frame env l :
  exists r, forall s, messages (session s) = Some l -> exists rd,
    display_chat_history env s =
    (r, {| session := session s; rendered := rd; requests := requests s; cursor := cursor s |}).
Proof.
  destruct (display_messages_frame env l) as (r & Hr). exists r. intros s Hm.
  unfold display_chat_history, within, bind, get_session.
  cbn [fst snd session set_cursor]. rewrite Hm.
  destruct (Hr (set_cursor (Container :: cursor s) s)) as (rd & ->).
  eexists. reflexivity.
Qed.

Lemma sidebar_idle env base s :
  (forall key, button_clicked env key = false) ->
  exists rd,
    sidebar env base s =
    (Ok tt,
     {| session := session s; rendered := rd;
        requests := requests s ++ [GET (base +:+ "/health") 5]; cursor := cursor s |}).
Proof.
  intros Hidle. destruct s as [ss rd rq cur].
  unfold sidebar, sidebar_health_check, st_success, st_error, st_info.
  cbv beta iota zeta delta [bind within emit fst snd].
  rewrite check_api_health_run.
  destruct (match requests_get env _ _ with Ok _ => _ | Raise _ => _ end);
    cbv beta iota zeta delta [bind within emit fst snd];
    (rewrite quick_query_buttons_none by (apply Forall_forall; intros; apply Hidle));
    rewrite fold_buttons, clear_chat_history_button_run, Hidle;
    eexists; reflexivity.
Qed.

(** X16.  A pending quick query is asked on the next run: when the session
    holds a pending question, no button is clicked and the stored history
    renders, the run issues the health probe and then one POST with that
    question, and the pending question is consumed. *)
Theorem pending_question_is_asked env ss t query :
  api_timeout env = Ok t ->
  current_question ss = Some query ->
  query <> "" ->
  (forall key, button_clicked env key = false) ->
  fst (display_chat_history env (start (initialised ss))) = Ok tt ->
  requests (snd (run_script env ss)) =
    [ GET (api_base_url env +:+ "/health") 5;
      POST (api_base_url env +:+ "/ask") (ask_body query) t ] /\
  current_question (session (snd (run_script env ss))) = None.
Proof.
  intros Ht Hcq Hne Hidle Hhistory.
  rewrite run_script_from_settings, Ht. unfold main_ui, st_markdown.
  cbv beta iota zeta delta [bind emit fst snd].
  match goal with
  | |- context [sidebar env ?b ?s0] => destruct (sidebar_idle env b s0 Hidle) as (rd1 & ->)
  end.
  cbv beta iota zeta delta [session requests cursor add_rendered fst snd].
  destruct (display_chat_history_frame env (messages_of ss)) as (r & Hr).
  pose proof (Hr (start (initialised ss)) eq_refl) as (rd0 & H0).
  rewrite H0 in Hhistory. cbn in Hhistory. subst r.
  match goal with
  | |- context [display_chat_history env ?s1] =>
      destruct (Hr s1 eq_refl) as (rd2 & ->)
  end.
  cbv beta iota zeta delta [session requests cursor fst snd].
  unfold next_question, get_session, modify_session, bind, ret.
  cbn [fst snd session current_question initialised set_session set_current_question].
  rewrite Hcq. cbn [fst snd session current_question].
  destruct query as [|c query]; [done|]. cbn [truthy].
  match goal with
  | |- context [handle_question env ?b t ?q ?s1] =>
      destruct (handle_question_requests env b t q s1 (messages_of ss) eq_refl)
        as [Hrq Hc];
      destruct (handle_question env b t q s1) as [[[]|e] s2]
  end; cbn in *; exact (conj Hrq Hc).
Qed.

Lemma pending_question_is_asked_witness :
  requests
    (snd (run_script (world None nothing_clicked healthy healthy)
            (pending_session sample_question))) =
  [ GET "http://backend/health" 5;
    POST "http://backend/ask" (ask_body sample_question) 60 ].
Proof.
  apply (pending_question_is_asked (world None nothing_clicked healthy healthy)
           (pending_session sample_question) 60 sample_question);
    [reflexivity|reflexivity|discriminate|reflexivity|reflexivity].
Defined.

(** C8, as amended.  A submitted question, be it a pending quick query or
    a chat submission, is posted exactly once when its run reaches the
    handler: with a readable timeout setting, no button clicked and a
    stored history that renders, the run issues the health probe and then
    exactly one POST, to [{base_url}/ask] with the body
    [{"question": question}] and the configured timeout.  The handler
    itself issues exactly one POST whatever the backend answers: a failed
    request is not repeated. *)
Theorem submitted_question_posts_once env :
  (forall ss t q,
     api_timeout env = Ok t ->
     (forall key, button_clicked env key = false) ->
     fst (display_chat_history env (start (initialised ss))) = Ok tt ->
     submitted_question env ss = Some q ->
     q <> "" ->
     requests (snd (run_script env ss)) =
     [ GET (api_base_url env +:+ "/health") 5;
       POST (api_base_url env +:+ "/ask") (VDict {[ "question" := VStr q ]}) t ]) /\
  (forall base t q s msgs,
     messages (session s) = Some msgs ->
     requests (snd (handle_question env base t q s)) =
     requests s ++ [POST (base +:+ "/ask") (VDict {[ "question" := VStr q ]}) t]).
Proof.
  split.
  - intros ss t q Ht Hidle Hhistory Hq Hne.
    rewrite run_script_from_settings, Ht. unfold main_ui, st_markdown.
    cbv beta iota zeta delta [bind emit fst snd].
    match goal with
    | |- context [sidebar env ?b ?s0] => destruct (sidebar_idle env b s0 Hidle) as (rd1 & ->)
    end.
    cbv beta iota zeta delta [session requests cursor add_rendered fst snd].
    destruct (display_chat_history_frame env (messages_of ss)) as (r & Hr).
    pose proof (Hr (start (initialised ss)) eq_refl) as (rd0 & H0).
    rewrite H0 in Hhistory. cbn in Hhistory. subst r.
    match goal with
    | |- context [display_chat_history env ?s1] =>
        destruct (Hr s1 eq_refl) as (rd2 & ->)
    end.
    cbv beta iota zeta delta [session requests cursor fst snd].
    unfold submitted_question in Hq.
    unfold next_question, st_chat_input, get_session, modify_session, bind, ret, emit.
    cbn [fst snd session current_question initialised set_session set_current_question].
    destruct (current_question ss) as [pending|]; [injection Hq as ->|rewrite Hq];
      cbn [fst snd session current_question add_rendered];
      (destruct q as [|c q]; [done|]); cbn [truthy];
      match goal with
      | |- context [handle_question env ?b t ?q0 ?s1] =>
          destruct (handle_question_requests env b t q0 s1 (messages_of ss) eq_refl)
            as [Hrq _];
          destruct (handle_question env b t q0 s1) as [[[]|e] s2]
      end; cbn in *; exact Hrq.
  - intros base t q s msgs Hm.
    exact (proj1 (handle_question_requests env base t q s msgs Hm)).
Qed.

Lemma submitted_question_posts_once_witness :
  requests (snd (run_script (answering sample_success) empty_session)) =
  [ GET "http://backend/health" 5;
    POST "http://backend/ask" (VDict {[ "question" := VStr sample_question ]}) 60 ].
Proof.
  apply (proj1 (submitted_question_posts_once (answering sample_success))
           empty_session 60 sample_question);
    [reflexivity|reflexivity|reflexivity|reflexivity|discriminate].
Defined.

(** C8, counterexample: once an answer with [data: 7] has been stored, the
    history loop raises before the chat input is read, so the next
    submitted question is never posted: the run issues the health probe
    only. *)
Lemma submitted_question_dropped_by_broken_history :
  let broken := next_session (answering sample_unsized_data) empty_session in
  messages broken =
    Some [user_message sample_question; message_data sample_unsized_data] /\
  submitted_question (answering sample_success) broken = Some sample_question /\
  fst (run_script (answering sample_success) broken) = Raise TypeError /\
  requests (snd (run_script (answering sample_success) broken)) =
    [GET "http://backend/health" 5].
Proof. cbv zeta. repeat split; vm_compute; reflexivity. Qed.

(** ** Runs without a question *)

(** X17.  Clicking Clear Chat History does not contact the backend beyond
    the health probe: the run empties both lists, keeps a pending question
    as it is, and reruns before the history or the chat input is
    reached. *)
Theorem clear_click_resets_without_asking env ss t :
  api_timeout env = Ok t ->
  Forall (fun q => button_clicked env (quick_key q) = false) quick_queries ->
  button_clicked env clear_label = true ->
  fst (run_script env ss) = Raise RerunException /\
  session (snd (run_script env ss)) =
    {| messages := Some []; query_history := Some [];
       current_question := current_question ss |} /\
  requests (snd (run_script env ss)) = [GET (api_base_url env +:+ "/health") 5].
Proof.
  intros Ht Hquick Hclear.
  rewrite run_script_from_settings, Ht.
  unfold main_ui, sidebar, sidebar_health_check, st_markdown, st_success, st_error, st_info.
  cbv beta iota zeta delta [bind within emit fst snd].
  rewrite check_api_health_run.
  destruct (match requests_get env _ _ with Ok _ => _ | Raise _ => _ end);
    cbv beta iota zeta delta [bind within emit fst snd];
    rewrite (quick_query_buttons_none env quick_queries _ Hquick);
    rewrite fold_buttons, clear_chat_history_button_run, Hclear; done.
Qed.

Lemma clear_click_resets_without_asking_witness :
  session (snd (run_script (world None clear_clicked healthy healthy) sample_session)) =
  empty_session.
Proof.
  apply (clear_click_resets_without_asking (world None clear_clicked healthy healthy)
           sample_session 60).
  - reflexivity.
  - repeat (apply Forall_cons_2; [reflexivity|]). apply Forall_nil_2.
  - reflexivity.
Defined.

(** X18.  A run in which nothing happens (no button clicked, nothing
    pending, nothing submitted or an empty submission) and whose stored
    history renders completes normally, footer included; it issues the
    health probe and nothing else, and leaves the session as it was, with
    the two lists now present. *)
Theorem idle_run_only_probes env ss t :
  api_timeout env = Ok t ->
  (forall key, button_clicked env key = false) ->
  current_question ss = None ->
  chat_input_state env = None \/ chat_input_state env = Some "" ->
  fst (display_chat_history env (start (initialised ss))) = Ok tt ->
  fst (run_script env ss) = Ok tt /\
  session (snd (run_script env ss)) = initialised ss /\
  requests (snd (run_script env ss)) = [GET (api_base_url env +:+ "/health") 5].
Proof.
  intros Ht Hidle Hcq Hchat Hhistory.
  rewrite run_script_from_settings, Ht. unfold main_ui, st_markdown.
  cbv beta iota zeta delta [bind emit fst snd].
  match goal with
  | |- context [sidebar env ?b ?s0] => destruct (sidebar_idle env b s0 Hidle) as (rd1 & ->)
  end.
  cbv beta iota zeta delta [session requests cursor add_rendered fst snd].
  destruct (display_chat_history_frame env (messages_of ss)) as (r & Hr).
  pose proof (Hr (start (initialised ss)) eq_refl) as (rd0 & H0).
  rewrite H0 in Hhistory. cbn in Hhistory. subst r.
  match goal with
  | |- context [display_chat_history env ?s1] =>
      destruct (Hr s1 eq_refl) as (rd2 & ->)
  end.
  cbv beta iota zeta delta [session requests cursor fst snd].
  unfold next_question, st_chat_input, get_session, bind, ret, emit.
  cbn [fst snd session current_question initialised].
  rewrite Hcq. destruct Hchat as [->| ->]; done.
Qed.

Lemma idle_run_only_probes_witness :
  requests (snd (run_script (world None nothing_clicked healthy healthy) sample_session)) =
  [GET "http://backend/health" 5].
Proof.
  apply (idle_run_only_probes (world None nothing_clicked healthy healthy)
           sample_session 60);
    [reflexivity|reflexivity|reflexivity|by left|reflexivity].
Defined.

(** ** A session of several runs *)

Lemma session_lists_grow_without_clear_witness :
  messages_of empty_session `prefix_of`
    messages_of (after_runs [answering sample_success; answering sample_failure] empty_session).
Proof.
  apply (session_lists_grow_without_clear
           [answering sample_success; answering sample_failure] empty_session).
  repeat (apply Forall_cons_2; [reflexivity|]). apply Forall_nil_2.
Defined.
